(** * capsule8 sensor: syscall and network event sources

    A shallow embedding of the probe-registration and sample-decoding layer
    of the sensor package (the syscall event source and the network event
    source), followed by the properties established about it.

    The first half of the file holds the model, the second half the
    theorems.  Registration code runs in a small state-and-abort monad over
    the sensor, the package-level variables and the subscription that is the
    receiver of the call; decoding code is pure and returns the list of
    events handed to [DispatchEvent]. *)

From Stdlib Require Import ZArith String List Bool Lia.
From stdpp Require Import base gmap strings list.

Local Open Scope Z_scope.

(* ================================================================= *)
(** ** Machine integers *)

(** Go's [int64]: two's complement, additions wrap around. *)
Definition int64_min : Z := - 2 ^ 63.
Definition int64_max : Z := 2 ^ 63 - 1.

Definition in_int64 (z : Z) : Prop := int64_min <= z <= int64_max.

Definition wrap_int64 (z : Z) : Z := (z + 2 ^ 63) mod 2 ^ 64 - 2 ^ 63.

(* ================================================================= *)
(** ** The tracing engine seen from the sensor *)

(** Handler functions are passed to the engine by reference; [fn_f] is the
    reference to the function [f]. *)
Inductive Handler : Type :=
| fn_handleDummySysEnter
| fn_handleSyscallTraceEnter
| fn_handleSysExit
| fn_handleSysEnterAccept
| fn_handleSysExitAccept
| fn_handleSysBind
| fn_handleSysExitBind
| fn_handleSysConnect
| fn_handleSysExitConnect
| fn_handleSysEnterListen
| fn_handleSysExitListen
| fn_handleSysEnterRecvfrom
| fn_handleSysExitRecvfrom
| fn_handleSysSendto
| fn_handleSysExitSendto.

(** A filter expression is opaque to this layer. *)
Definition Expression : Type := string.

(** What the engine answers to a registration: an event (or group)
    identifier, or an error. *)
Inductive Answer : Type :=
| Registered (id : Z)
| Refused (err : string).

(** One entry of the engine's call log: the call with its arguments and
    what the engine answered. *)
Inductive Call : Type :=
| DoesTracepointExist (name : string) (present : bool)
| RegisterTracepoint (name : string) (h : Handler) (group : Z)
    (filter : string) (a : Answer)
| RegisterKprobe (symbol : string) (onReturn : bool) (fetchargs : string)
    (h : Handler) (group : Z) (filter : Expression) (a : Answer)
| RegisterEventGroup (a : Answer)
| UnregisterEvent (id : Z).

(** The engine is external.  Its behaviour in one execution is fixed by
    which tracepoints exist and by what it answers to its n-th call;
    [calls] is the chronological log of the calls made so far. *)
Record Monitor : Type := mkMonitor {
  tracepoints : string -> bool;
  answers : nat -> Answer;
  calls : list Call
}.

(* ================================================================= *)
(** ** Sensor, subscription and package state *)

(** The closures stored in [eventSink.unregister].  The source builds one
    closure only, in [RegisterSyscallEnterEventFilter]; it captures the
    subscription's sensor and nothing else. *)
Inductive unregisterFn : Type :=
| releaseGlobalDummy.

Record eventSink : Type := mkEventSink {
  eventID : Z;
  unregister : option unregisterFn
}.

Record Sensor : Type := mkSensor {
  monitor : Monitor;
  dummySyscallEventCount : Z;
  dummySyscallEventID : Z;
  ContainerCache_EventGroupID : Z;
  kernelSymbols : string -> bool
}.

Record Subscription : Type := mkSubscription {
  eventGroupID : Z;
  eventSinks : gmap Z eventSink;
  status : list string
}.

(** The package-level variables of the syscall event source. *)
Record Globals : Type := mkGlobals {
  syscallOnce : bool;
  syscallEnterName : string;
  syscallExitName : string
}.

Record State : Type := mkState {
  sensor : Sensor;
  globals : Globals;
  sub : Subscription;
  kernelVersion : Z * Z * Z
}.

Definition set_calls (f : list Call -> list Call) (st : State) : State :=
  let sn := sensor st in
  let m := monitor sn in
  mkState
    (mkSensor (mkMonitor (tracepoints m) (answers m) (f (calls m)))
       (dummySyscallEventCount sn) (dummySyscallEventID sn)
       (ContainerCache_EventGroupID sn) (kernelSymbols sn))
    (globals st) (sub st) (kernelVersion st).

Definition set_dummySyscallEventCount (c : Z) (st : State) : State :=
  let sn := sensor st in
  mkState
    (mkSensor (monitor sn) c (dummySyscallEventID sn)
       (ContainerCache_EventGroupID sn) (kernelSymbols sn))
    (globals st) (sub st) (kernelVersion st).

Definition set_dummySyscallEventID (id : Z) (st : State) : State :=
  let sn := sensor st in
  mkState
    (mkSensor (monitor sn) (dummySyscallEventCount sn) id
       (ContainerCache_EventGroupID sn) (kernelSymbols sn))
    (globals st) (sub st) (kernelVersion st).

Definition set_globals (g : Globals) (st : State) : State :=
  mkState (sensor st) g (sub st) (kernelVersion st).

Definition set_sub (s : Subscription) (st : State) : State :=
  mkState (sensor st) (globals st) s (kernelVersion st).

(** Short names for what the theorems observe. *)
Definition count_of (st : State) : Z := dummySyscallEventCount (sensor st).
Definition log_of (st : State) : list Call := calls (monitor (sensor st)).

(* ================================================================= *)
(** ** The monad: state passing, with process abort *)

(** [glog.Fatal] ends the process; nothing runs after it. *)
Inductive Outcome (A : Type) : Type :=
| Ok (a : A) (st : State)
| Fatal (msg : string).

Arguments Ok {A} a st.
Arguments Fatal {A} msg.

Definition M (A : Type) : Type := State -> Outcome A.

Definition ret {A} (a : A) : M A := fun st => Ok a st.

Definition bind {A B} (m : M A) (k : A -> M B) : M B :=
  fun st => match m st with
            | Ok a st' => k a st'
            | Fatal msg => Fatal msg
            end.

Notation "'let!' x ':=' m 'in' k" := (bind m (fun x => k))
  (at level 10, x pattern, m at level 100, k at level 200).
Notation "'do!' m 'in' k" := (bind m (fun _ => k))
  (at level 10, m at level 100, k at level 200).

Definition gets {A} (f : State -> A) : M A := fun st => Ok (f st) st.
Definition modify (f : State -> State) : M unit := fun st => Ok tt (f st).
Definition glog_Fatal {A} (msg : string) : M A := fun _ => Fatal msg.

(* ----------------------------------------------------------------- *)
(** *** Engine calls *)

Definition next_answer (st : State) : Answer :=
  answers (monitor (sensor st)) (length (log_of st)).

Definition Monitor_DoesTracepointExist (name : string) : M bool :=
  fun st =>
    let b := tracepoints (monitor (sensor st)) name in
    Ok b (set_calls (fun l => l ++ [DoesTracepointExist name b]) st).

Definition Monitor_RegisterTracepoint (name : string) (h : Handler)
    (group : Z) (filter : string) : M Answer :=
  fun st =>
    let a := next_answer st in
    Ok a (set_calls (fun l => l ++ [RegisterTracepoint name h group filter a]) st).

Definition Monitor_RegisterKprobe (symbol : string) (onReturn : bool)
    (fetchargs : string) (h : Handler) (group : Z) (filter : Expression)
    : M Answer :=
  fun st =>
    let a := next_answer st in
    Ok a (set_calls
            (fun l => l ++ [RegisterKprobe symbol onReturn fetchargs h group filter a])
            st).

Definition Monitor_RegisterEventGroup : M Answer :=
  fun st =>
    let a := next_answer st in
    Ok a (set_calls (fun l => l ++ [RegisterEventGroup a]) st).

Definition Monitor_UnregisterEvent (id : Z) : M unit :=
  modify (set_calls (fun l => l ++ [UnregisterEvent id])).

(** [atomic.AddInt64(&s.sensor.dummySyscallEventCount, delta)]: adds with
    wrap-around and returns the new value. *)
Definition atomic_AddInt64_dummySyscallEventCount (delta : Z) : M Z :=
  fun st =>
    let n := wrap_int64 (count_of st + delta) in
    Ok n (set_dummySyscallEventCount n st).

Definition logStatus (msg : string) : M unit :=
  modify (fun st =>
    let s := sub st in
    set_sub (mkSubscription (eventGroupID s) (eventSinks s) (status s ++ [msg])) st).

Definition sys_KernelVersion : M (Z * Z * Z) := gets kernelVersion.

Definition IsKernelSymbolAvailable (symbol : string) : M bool :=
  gets (fun st => kernelSymbols (sensor st) symbol).

(* ================================================================= *)
(** ** The syscall event source *)

Definition syscallNewEnterKprobeAddress : string := "syscall_trace_enter_phase1".
Definition syscallOldEnterKprobeAddress : string := "syscall_trace_enter".

(** These offsets index into the x86_64 version of struct pt_regs. *)
Definition syscallEnterKprobeFetchargs : string :=
  "id=+120(%di):s64 " +:+
  "arg0=+112(%di):u64 " +:+
  "arg1=+104(%di):u64 " +:+
  "arg2=+96(%di):u64 " +:+
  "arg3=+56(%di):u64 " +:+
  "arg4=+72(%di):u64 " +:+
  "arg5=+64(%di):u64".

Definition dummyFilter : string := "id == 0x7fffffff".

Definition set_syscallEnterName (name : string) : M unit :=
  modify (fun st =>
    let g := globals st in
    set_globals (mkGlobals (syscallOnce g) name (syscallExitName g)) st).

Definition set_syscallExitName (name : string) : M unit :=
  modify (fun st =>
    let g := globals st in
    set_globals (mkGlobals (syscallOnce g) (syscallEnterName g) name) st).

Definition initSyscallNames : M unit :=
  do! set_syscallEnterName "raw_syscalls/sys_enter" in
  let! name := gets (fun st => syscallEnterName (globals st)) in
  let! present := Monitor_DoesTracepointExist name in
  if present then
    set_syscallExitName "raw_syscalls/sys_exit"
  else
    do! set_syscallEnterName "syscalls/sys_enter" in
    let! name := gets (fun st => syscallEnterName (globals st)) in
    let! present := Monitor_DoesTracepointExist name in
    do! (if negb present
         then glog_Fatal "No syscall sys_enter tracepoint exists!"
         else ret tt) in
    set_syscallExitName "syscalls/sys_exit".

(** [syscallOnce.Do(f)]: runs [f] on the first call only. *)
Definition syscallOnce_Do (f : M unit) : M unit :=
  let! done := gets (fun st => syscallOnce (globals st)) in
  if done then ret tt
  else
    do! f in
    modify (fun st =>
      let g := globals st in
      set_globals (mkGlobals true (syscallEnterName g) (syscallExitName g)) st).

Definition registerGlobalDummySyscallEvent : M bool :=
  let! n := atomic_AddInt64_dummySyscallEventCount 1 in
  if n =? 1 then
    let! name := gets (fun st => syscallEnterName (globals st)) in
    let! group := gets (fun st => ContainerCache_EventGroupID (sensor st)) in
    let! a := Monitor_RegisterTracepoint name fn_handleDummySysEnter group dummyFilter in
    match a with
    | Refused err =>
        do! logStatus ("Could not register dummy syscall event " +:+ name
                       +:+ ": " +:+ err) in
        let! _ := atomic_AddInt64_dummySyscallEventCount (-1) in
        ret false
    | Registered eventID =>
        do! modify (set_dummySyscallEventID eventID) in
        ret true
    end
  else ret true.

(** The closure assigned to [unregister] in
    [RegisterSyscallEnterEventFilter]; its argument is not used. *)
Definition run_unregisterFn (f : unregisterFn) : M unit :=
  match f with
  | releaseGlobalDummy =>
      let! eventID := gets (fun st => dummySyscallEventID (sensor st)) in
      let! n := atomic_AddInt64_dummySyscallEventCount (-1) in
      if n =? 0 then Monitor_UnregisterEvent eventID else ret tt
  end.

(* ----------------------------------------------------------------- *)
(** *** Subscription helpers that live outside the two source files *)

Definition set_eventGroupID (id : Z) : M unit :=
  modify (fun st =>
    let s := sub st in
    set_sub (mkSubscription id (eventSinks s) (status s)) st).

Definition set_eventSinks (f : gmap Z eventSink -> gmap Z eventSink) : M unit :=
  modify (fun st =>
    let s := sub st in
    set_sub (mkSubscription (eventGroupID s) (f (eventSinks s)) (status s)) st).

(** Modelled from the spec: [createEventGroup] is not among the source
    files.  Each subscription creates its own event group: the engine is
    asked for a group unless the subscription already has one, and the
    engine's error, if any, is returned. *)
Definition createEventGroup : M (option string) :=
  let! g := gets (fun st => eventGroupID (sub st)) in
  if g =? 0 then
    let! a := Monitor_RegisterEventGroup in
    match a with
    | Refused err => ret (Some err)
    | Registered id => do! set_eventGroupID id in ret None
    end
  else ret None.

(** Modelled from the spec: [registerKprobe] is not among the source
    files.  It submits the kprobe request (symbol, fetch-arg string, target
    event group, filter) to the engine; a refusal is reported to the
    subscription and returned; otherwise a handle holding the engine's
    event id, with no release hook yet, joins the subscription's sinks. *)
Definition registerKprobe (symbol : string) (onReturn : bool)
    (fetchargs : string) (h : Handler) (filter : Expression)
    (required : bool) : M Answer :=
  let! group := gets (fun st => eventGroupID (sub st)) in
  let! a := Monitor_RegisterKprobe symbol onReturn fetchargs h group filter in
  match a with
  | Refused err =>
      do! logStatus ("Could not register kprobe " +:+ symbol +:+ ": " +:+ err) in
      ret a
  | Registered id =>
      do! set_eventSinks (fun sinks => <[id := mkEventSink id None]> sinks) in
      ret a
  end.

(** Modelled from the spec: [registerTracepoint] is not among the source
    files.  Same contract as [registerKprobe], for a tracepoint. *)
Definition registerTracepoint (name : string) (h : Handler)
    (filter : Expression) : M Answer :=
  let! group := gets (fun st => eventGroupID (sub st)) in
  let! a := Monitor_RegisterTracepoint name h group filter in
  match a with
  | Refused err =>
      do! logStatus ("Could not register tracepoint " +:+ name +:+ ": " +:+ err) in
      ret a
  | Registered id =>
      do! set_eventSinks (fun sinks => <[id := mkEventSink id None]> sinks) in
      ret a
  end.

(** [es.unregister = unregister], on the sink that [registerKprobe]
    returned a pointer to. *)
Definition set_unregister (id : Z) (f : option unregisterFn) : M unit :=
  set_eventSinks (fun sinks => <[id := mkEventSink id f]> sinks).

Fixpoint forEach {A} (l : list A) (f : A -> M unit) : M unit :=
  match l with
  | [] => ret tt
  | x :: l' => do! f x in forEach l' f
  end.

(** Modelled from the spec: the teardown of a subscription is not among
    the source files.  It unregisters every owned probe and runs the
    release hook of each handle that carries one; the subscription owns
    nothing afterwards. *)
Definition closeEventSink (es : eventSink) : M unit :=
  do! Monitor_UnregisterEvent (eventID es) in
  match unregister es with
  | Some f => run_unregisterFn f
  | None => ret tt
  end.

Definition Subscription_Close : M unit :=
  let! sinks := gets (fun st => map_to_list (eventSinks (sub st))) in
  do! forEach sinks (fun kv => closeEventSink (snd kv)) in
  set_eventSinks (fun _ => ∅).

(* ----------------------------------------------------------------- *)
(** *** Registration of the syscall events *)

Definition registerLocalDummySyscallEvent : M bool :=
  let! err := createEventGroup in
  match err with
  | Some e =>
      do! logStatus ("Could not create subscription event group: " +:+ e) in
      ret false
  | None =>
      let! name := gets (fun st => syscallEnterName (globals st)) in
      let! group := gets (fun st => eventGroupID (sub st)) in
      let! a := Monitor_RegisterTracepoint name fn_handleDummySysEnter group dummyFilter in
      match a with
      | Refused e =>
          do! logStatus ("Could not register dummy syscall event " +:+ name
                         +:+ ": " +:+ e) in
          ret false
      | Registered _ => ret true
      end
  end.

Definition RegisterSyscallEnterEventFilter (filter : Expression) : M unit :=
  do! syscallOnce_Do initSyscallNames in
  let! version := sys_KernelVersion in
  let '(major, _, _) := version in
  let! acquired :=
    (if major <? 3 then
       let! result := registerLocalDummySyscallEvent in
       ret (result, None)
     else
       let! result := registerGlobalDummySyscallEvent in
       ret (result, Some releaseGlobalDummy)) in
  let '(result, unregister) := acquired in
  if result : bool then
    let! available := IsKernelSymbolAvailable syscallNewEnterKprobeAddress in
    let kprobeSymbol :=
      if available : bool then syscallNewEnterKprobeAddress
      else syscallOldEnterKprobeAddress in
    let! es := registerKprobe kprobeSymbol false syscallEnterKprobeFetchargs
                 fn_handleSyscallTraceEnter filter false in
    match es with
    | Refused _ =>
        match unregister with
        | Some f => run_unregisterFn f
        | None => ret tt
        end
    | Registered id => set_unregister id unregister
    end
  else ret tt.

Definition RegisterSyscallExitEventFilter (filter : Expression) : M unit :=
  do! syscallOnce_Do initSyscallNames in
  let! name := gets (fun st => syscallExitName (globals st)) in
  let! _ := registerTracepoint name fn_handleSysExit filter in
  ret tt.

(* ----------------------------------------------------------------- *)
(** *** Running sequences of operations *)

(** A process starts with a zero reference count, an empty call log and
    unresolved names; the container cache already has its event group. *)
Definition initial (tps : string -> bool) (ans : nat -> Answer)
    (syms : string -> bool) (version : Z * Z * Z) (cacheGroup : Z) : State :=
  mkState
    (mkSensor (mkMonitor tps ans []) 0 0 cacheGroup syms)
    (mkGlobals false "" "")
    (mkSubscription 0 ∅ [])
    version.

(** The two operations on the shared dummy probe: an acquire is a call of
    [registerGlobalDummySyscallEvent], a release a call of the closure. *)
Inductive Op : Type :=
| Acquire
| Release.

(** Runs the operations in order; the result lists what each acquire
    returned. *)
Fixpoint run (ops : list Op) : M (list bool) :=
  match ops with
  | [] => ret []
  | Acquire :: ops' =>
      let! b := registerGlobalDummySyscallEvent in
      let! bs := run ops' in
      ret (b :: bs)
  | Release :: ops' =>
      do! run_unregisterFn releaseGlobalDummy in
      run ops'
  end.

Definition final {A} (o : Outcome A) (default : State) : State :=
  match o with
  | Ok _ st => st
  | Fatal _ => default
  end.

(* ================================================================= *)
(** ** Samples and field types *)

(** The value types that the field-type declarations of the two event
    sources use. *)
Inductive ValueType : Type :=
| ValueTypeString
| ValueTypeSignedInt64
| ValueTypeUnsignedInt16
| ValueTypeUnsignedInt32
| ValueTypeUnsignedInt64.

Inductive Value : Type :=
| VString (s : string)
| VSignedInt64 (z : Z)
| VUnsignedInt16 (z : Z)
| VUnsignedInt32 (z : Z)
| VUnsignedInt64 (z : Z).

(** The zero value of each type. *)
Definition zeroValue (t : ValueType) : Value :=
  match t with
  | ValueTypeString => VString ""
  | ValueTypeSignedInt64 => VSignedInt64 0
  | ValueTypeUnsignedInt16 => VUnsignedInt16 0
  | ValueTypeUnsignedInt32 => VUnsignedInt32 0
  | ValueTypeUnsignedInt64 => VUnsignedInt64 0
  end.

Definition SyscallEnterEventTypes : gmap string ValueType :=
  list_to_map [
    ("id", ValueTypeSignedInt64);
    ("arg0", ValueTypeUnsignedInt64);
    ("arg1", ValueTypeUnsignedInt64);
    ("arg2", ValueTypeUnsignedInt64);
    ("arg3", ValueTypeUnsignedInt64);
    ("arg4", ValueTypeUnsignedInt64);
    ("arg5", ValueTypeUnsignedInt64)
  ].

Definition SyscallExitEventTypes : gmap string ValueType :=
  list_to_map [
    ("id", ValueTypeSignedInt64);
    ("ret", ValueTypeSignedInt64)
  ].

Definition NetworkAttemptEventTypes : gmap string ValueType :=
  list_to_map [ ("fd", ValueTypeUnsignedInt64) ].

Definition NetworkAttemptWithAddressEventTypes : gmap string ValueType :=
  list_to_map [
    ("fd", ValueTypeUnsignedInt64);
    ("sa_family", ValueTypeUnsignedInt16);
    ("sin_port", ValueTypeUnsignedInt16);
    ("sin_addr", ValueTypeUnsignedInt32);
    ("sun_path", ValueTypeString);
    ("sin6_port", ValueTypeUnsignedInt16);
    ("sin6_addr_high", ValueTypeUnsignedInt64);
    ("sin6_addr_low", ValueTypeUnsignedInt64)
  ].

Definition NetworkListenAttemptEventTypes : gmap string ValueType :=
  list_to_map [
    ("fd", ValueTypeUnsignedInt64);
    ("backlog", ValueTypeUnsignedInt64)
  ].

Definition NetworkResultEventTypes : gmap string ValueType :=
  list_to_map [ ("ret", ValueTypeSignedInt64) ].

(** Modelled from the spec: [perf.Sample] and its getters are not among
    the source files.  A sample is an already-parsed mapping from field
    name to a typed value, accessed by name, and may be missing a field; a
    getter returns the value and no error when the field is there with the
    type asked for, and the zero value of that type with an error
    otherwise. *)
Definition Sample : Type := gmap string Value.

Definition GetSignedInt64 (sample : Sample) (name : string) : Z * bool :=
  match sample !! name with
  | Some (VSignedInt64 z) => (z, false)
  | _ => (0, true)
  end.

Definition GetUnsignedInt16 (sample : Sample) (name : string) : Z * bool :=
  match sample !! name with
  | Some (VUnsignedInt16 z) => (z, false)
  | _ => (0, true)
  end.

Definition GetUnsignedInt32 (sample : Sample) (name : string) : Z * bool :=
  match sample !! name with
  | Some (VUnsignedInt32 z) => (z, false)
  | _ => (0, true)
  end.

Definition GetUnsignedInt64 (sample : Sample) (name : string) : Z * bool :=
  match sample !! name with
  | Some (VUnsignedInt64 z) => (z, false)
  | _ => (0, true)
  end.

Definition GetString (sample : Sample) (name : string) : string * bool :=
  match sample !! name with
  | Some (VString s) => (s, false)
  | _ => ("", true)
  end.

(* ================================================================= *)
(** ** The network event source: event data *)

(** Address families, from [golang.org/x/sys/unix] on Linux. *)
Definition AF_LOCAL : Z := 1.
Definition AF_INET : Z := 2.
Definition AF_INET6 : Z := 10.

Record NetworkAttemptTelemetryEventData : Type := mkNetworkAttempt {
  FD : Z
}.

Record NetworkAddressTelemetryEventData : Type := mkNetworkAddress {
  Family : Z;
  UnixPath : string;
  IPv4Address : Z;
  IPv4Port : Z;
  IPv6AddressHigh : Z;
  IPv6AddressLow : Z;
  IPv6Port : Z
}.

Record NetworkResultTelemetryEventData : Type := mkNetworkResult {
  Return : Z
}.

(** Go zero values, as left by [var e ...]. *)
Definition zeroNetworkAttempt : NetworkAttemptTelemetryEventData :=
  mkNetworkAttempt 0.
Definition zeroNetworkAddress : NetworkAddressTelemetryEventData :=
  mkNetworkAddress 0 "" 0 0 0 0 0.
Definition zeroNetworkResult : NetworkResultTelemetryEventData :=
  mkNetworkResult 0.

Definition NetworkAttempt_initWithSample
    (ted : NetworkAttemptTelemetryEventData) (sample : Sample)
    : NetworkAttemptTelemetryEventData :=
  mkNetworkAttempt (fst (GetUnsignedInt64 sample "fd")).

Definition NetworkAddress_initWithSample
    (ted : NetworkAddressTelemetryEventData) (sample : Sample)
    : NetworkAddressTelemetryEventData :=
  let family := fst (GetUnsignedInt16 sample "sa_family") in
  let ted := mkNetworkAddress family (UnixPath ted) (IPv4Address ted)
               (IPv4Port ted) (IPv6AddressHigh ted) (IPv6AddressLow ted)
               (IPv6Port ted) in
  if Family ted =? AF_LOCAL then
    mkNetworkAddress (Family ted) (fst (GetString sample "sun_path"))
      (IPv4Address ted) (IPv4Port ted)
      (IPv6AddressHigh ted) (IPv6AddressLow ted) (IPv6Port ted)
  else if Family ted =? AF_INET then
    mkNetworkAddress (Family ted) (UnixPath ted)
      (fst (GetUnsignedInt32 sample "sin_addr"))
      (fst (GetUnsignedInt16 sample "sin_port"))
      (IPv6AddressHigh ted) (IPv6AddressLow ted) (IPv6Port ted)
  else if Family ted =? AF_INET6 then
    mkNetworkAddress (Family ted) (UnixPath ted)
      (IPv4Address ted) (IPv4Port ted)
      (fst (GetUnsignedInt64 sample "sin6_addr_high"))
      (fst (GetUnsignedInt64 sample "sin6_addr_low"))
      (fst (GetUnsignedInt16 sample "sin6_port"))
  else ted.

Definition NetworkResult_initWithSample
    (ted : NetworkResultTelemetryEventData) (sample : Sample)
    : NetworkResultTelemetryEventData :=
  mkNetworkResult (fst (GetSignedInt64 sample "ret")).

Definition argKeys : list string :=
  ["arg0"; "arg1"; "arg2"; "arg3"; "arg4"; "arg5"].

(* ================================================================= *)
(** ** Telemetry events and the sample handlers *)

Section Decoding.

(** The common envelope, [TelemetryEventData], and its
    [InitWithSample] are declared outside the two source files.  The
    handlers only need the zero envelope and the initialisation, which
    reports success and gives the envelope as it left it. *)
Variable TelemetryEventData : Type.
Variable zeroTelemetryEventData : TelemetryEventData.
Variable InitWithSample :
  TelemetryEventData -> Sample -> bool * TelemetryEventData.

(** One variant per event struct of the two sources; embedded structs
    are the leading arguments. *)
Inductive TelemetryEvent : Type :=
| SyscallEnterTelemetryEvent (d : TelemetryEventData)
    (ID : Z) (Arguments : list Z)
| SyscallExitTelemetryEvent (d : TelemetryEventData) (ID : Z) (Ret : Z)
| NetworkAcceptAttemptTelemetryEvent (d : TelemetryEventData)
    (a : NetworkAttemptTelemetryEventData)
| NetworkAcceptResultTelemetryEvent (d : TelemetryEventData)
    (r : NetworkResultTelemetryEventData)
| NetworkBindAttemptTelemetryEvent (d : TelemetryEventData)
    (a : NetworkAttemptTelemetryEventData)
    (addr : NetworkAddressTelemetryEventData)
| NetworkBindResultTelemetryEvent (d : TelemetryEventData)
    (r : NetworkResultTelemetryEventData)
| NetworkConnectAttemptTelemetryEvent (d : TelemetryEventData)
    (a : NetworkAttemptTelemetryEventData)
    (addr : NetworkAddressTelemetryEventData)
| NetworkConnectResultTelemetryEvent (d : TelemetryEventData)
    (r : NetworkResultTelemetryEventData)
| NetworkListenAttemptTelemetryEvent (d : TelemetryEventData)
    (a : NetworkAttemptTelemetryEventData) (Backlog : Z)
| NetworkListenResultTelemetryEvent (d : TelemetryEventData)
    (r : NetworkResultTelemetryEventData)
| NetworkRecvfromAttemptTelemetryEvent (d : TelemetryEventData)
    (a : NetworkAttemptTelemetryEventData)
| NetworkRecvfromResultTelemetryEvent (d : TelemetryEventData)
    (r : NetworkResultTelemetryEventData)
| NetworkSendtoAttemptTelemetryEvent (d : TelemetryEventData)
    (a : NetworkAttemptTelemetryEventData)
    (addr : NetworkAddressTelemetryEventData)
| NetworkSendtoResultTelemetryEvent (d : TelemetryEventData)
    (r : NetworkResultTelemetryEventData).

Definition CommonTelemetryEventData (e : TelemetryEvent)
    : TelemetryEventData :=
  match e with
  | SyscallEnterTelemetryEvent d _ _
  | SyscallExitTelemetryEvent d _ _
  | NetworkAcceptAttemptTelemetryEvent d _
  | NetworkAcceptResultTelemetryEvent d _
  | NetworkBindAttemptTelemetryEvent d _ _
  | NetworkBindResultTelemetryEvent d _
  | NetworkConnectAttemptTelemetryEvent d _ _
  | NetworkConnectResultTelemetryEvent d _
  | NetworkListenAttemptTelemetryEvent d _ _
  | NetworkListenResultTelemetryEvent d _
  | NetworkRecvfromAttemptTelemetryEvent d _
  | NetworkRecvfromResultTelemetryEvent d _
  | NetworkSendtoAttemptTelemetryEvent d _ _
  | NetworkSendtoResultTelemetryEvent d _ => d
  end.

(** What a handler hands to [DispatchEvent]: the event id and the
    event, in order. *)
Definition Dispatched : Type := list (Z * TelemetryEvent).

Definition handleDummySysEnter (eventid : Z) (sample : Sample)
    : Dispatched := [].

(** [for i := 0; i < 6; i++ { e.Arguments[i], _ = ... argKeys[i] }] *)
Definition fillArguments (sample : Sample) (arguments : list Z) : list Z :=
  foldl (fun args (i : nat) =>
           <[i := fst (GetUnsignedInt64 sample (default "" (argKeys !! i)))]> args)
    arguments (seq 0 6).

Definition handleSyscallTraceEnter (eventid : Z) (sample : Sample)
    : Dispatched :=
  let '(ok, d) := InitWithSample zeroTelemetryEventData sample in
  if ok : bool then
    let id := fst (GetSignedInt64 sample "id") in
    let arguments := fillArguments sample (replicate 6 0) in
    [(eventid, SyscallEnterTelemetryEvent d id arguments)]
  else [].

Definition handleSysExit (eventid : Z) (sample : Sample) : Dispatched :=
  let '(ok, d) := InitWithSample zeroTelemetryEventData sample in
  if ok : bool then
    let id := fst (GetSignedInt64 sample "id") in
    let r := fst (GetSignedInt64 sample "ret") in
    [(eventid, SyscallExitTelemetryEvent d id r)]
  else [].

Definition handleSysEnterAccept (eventid : Z) (sample : Sample)
    : Dispatched :=
  let '(ok, d) := InitWithSample zeroTelemetryEventData sample in
  if ok : bool then
    let a := NetworkAttempt_initWithSample zeroNetworkAttempt sample in
    [(eventid, NetworkAcceptAttemptTelemetryEvent d a)]
  else [].

Definition handleSysExitAccept (eventid : Z) (sample : Sample)
    : Dispatched :=
  let '(ok, d) := InitWithSample zeroTelemetryEventData sample in
  if ok : bool then
    let r := NetworkResult_initWithSample zeroNetworkResult sample in
    [(eventid, NetworkAcceptResultTelemetryEvent d r)]
  else [].

Definition handleSysBind (eventid : Z) (sample : Sample) : Dispatched :=
  let '(ok, d) := InitWithSample zeroTelemetryEventData sample in
  if ok : bool then
    let a := NetworkAttempt_initWithSample zeroNetworkAttempt sample in
    let addr := NetworkAddress_initWithSample zeroNetworkAddress sample in
    [(eventid, NetworkBindAttemptTelemetryEvent d a addr)]
  else [].

Definition handleSysExitBind (eventid : Z) (sample : Sample)
    : Dispatched :=
  let '(ok, d) := InitWithSample zeroTelemetryEventData sample in
  if ok : bool then
    let r := NetworkResult_initWithSample zeroNetworkResult sample in
    [(eventid, NetworkBindResultTelemetryEvent d r)]
  else [].

Definition handleSysConnect (eventid : Z) (sample : Sample)
    : Dispatched :=
  let '(ok, d) := InitWithSample zeroTelemetryEventData sample in
  if ok : bool then
    let a := NetworkAttempt_initWithSample zeroNetworkAttempt sample in
    let addr := NetworkAddress_initWithSample zeroNetworkAddress sample in
    [(eventid, NetworkConnectAttemptTelemetryEvent d a addr)]
  else [].

Definition handleSysExitConnect (eventid : Z) (sample : Sample)
    : Dispatched :=
  let '(ok, d) := InitWithSample zeroTelemetryEventData sample in
  if ok : bool then
    let r := NetworkResult_initWithSample zeroNetworkResult sample in
    [(eventid, NetworkConnectResultTelemetryEvent d r)]
  else [].

Definition handleSysEnterListen (eventid : Z) (sample : Sample)
    : Dispatched :=
  let '(ok, d) := InitWithSample zeroTelemetryEventData sample in
  if ok : bool then
    let a := NetworkAttempt_initWithSample zeroNetworkAttempt sample in
    let backlog := fst (GetUnsignedInt64 sample "backlog") in
    [(eventid, NetworkListenAttemptTelemetryEvent d a backlog)]
  else [].

Definition handleSysExitListen (eventid : Z) (sample : Sample)
    : Dispatched :=
  let '(ok, d) := InitWithSample zeroTelemetryEventData sample in
  if ok : bool then
    let r := NetworkResult_initWithSample zeroNetworkResult sample in
    [(eventid, NetworkListenResultTelemetryEvent d r)]
  else [].

Definition handleSysEnterRecvfrom (eventid : Z) (sample : Sample)
    : Dispatched :=
  let '(ok, d) := InitWithSample zeroTelemetryEventData sample in
  if ok : bool then
    let a := NetworkAttempt_initWithSample zeroNetworkAttempt sample in
    [(eventid, NetworkRecvfromAttemptTelemetryEvent d a)]
  else [].

Definition handleSysExitRecvfrom (eventid : Z) (sample : Sample)
    : Dispatched :=
  let '(ok, d) := InitWithSample zeroTelemetryEventData sample in
  if ok : bool then
    let r := NetworkResult_initWithSample zeroNetworkResult sample in
    [(eventid, NetworkRecvfromResultTelemetryEvent d r)]
  else [].

Definition handleSysSendto (eventid : Z) (sample : Sample) : Dispatched :=
  let '(ok, d) := InitWithSample zeroTelemetryEventData sample in
  if ok : bool then
    let a := NetworkAttempt_initWithSample zeroNetworkAttempt sample in
    let addr := NetworkAddress_initWithSample zeroNetworkAddress sample in
    [(eventid, NetworkSendtoAttemptTelemetryEvent d a addr)]
  else [].

Definition handleSysExitSendto (eventid : Z) (sample : Sample)
    : Dispatched :=
  let '(ok, d) := InitWithSample zeroTelemetryEventData sample in
  if ok : bool then
    let r := NetworkResult_initWithSample zeroNetworkResult sample in
    [(eventid, NetworkSendtoResultTelemetryEvent d r)]
  else [].

(** Calling a handler through its reference. *)
Definition call (h : Handler) : Z -> Sample -> Dispatched :=
  match h with
  | fn_handleDummySysEnter => handleDummySysEnter
  | fn_handleSyscallTraceEnter => handleSyscallTraceEnter
  | fn_handleSysExit => handleSysExit
  | fn_handleSysEnterAccept => handleSysEnterAccept
  | fn_handleSysExitAccept => handleSysExitAccept
  | fn_handleSysBind => handleSysBind
  | fn_handleSysExitBind => handleSysExitBind
  | fn_handleSysConnect => handleSysConnect
  | fn_handleSysExitConnect => handleSysExitConnect
  | fn_handleSysEnterListen => handleSysEnterListen
  | fn_handleSysExitListen => handleSysExitListen
  | fn_handleSysEnterRecvfrom => handleSysEnterRecvfrom
  | fn_handleSysExitRecvfrom => handleSysExitRecvfrom
  | fn_handleSysSendto => handleSysSendto
  | fn_handleSysExitSendto => handleSysExitSendto
  end.

End Decoding.

Arguments SyscallEnterTelemetryEvent {TelemetryEventData} d ID Arguments.
Arguments SyscallExitTelemetryEvent {TelemetryEventData} d ID Ret.
Arguments NetworkAcceptAttemptTelemetryEvent {TelemetryEventData} d a.
Arguments NetworkAcceptResultTelemetryEvent {TelemetryEventData} d r.
Arguments NetworkBindAttemptTelemetryEvent {TelemetryEventData} d a addr.
Arguments NetworkBindResultTelemetryEvent {TelemetryEventData} d r.
Arguments NetworkConnectAttemptTelemetryEvent {TelemetryEventData} d a addr.
Arguments NetworkConnectResultTelemetryEvent {TelemetryEventData} d r.
Arguments NetworkListenAttemptTelemetryEvent {TelemetryEventData} d a Backlog.
Arguments NetworkListenResultTelemetryEvent {TelemetryEventData} d r.
Arguments NetworkRecvfromAttemptTelemetryEvent {TelemetryEventData} d a.
Arguments NetworkRecvfromResultTelemetryEvent {TelemetryEventData} d r.
Arguments NetworkSendtoAttemptTelemetryEvent {TelemetryEventData} d a addr.
Arguments NetworkSendtoResultTelemetryEvent {TelemetryEventData} d r.
Arguments CommonTelemetryEventData {TelemetryEventData} e.

(* ================================================================= *)
(** ** The network event source: registration *)

Definition networkKprobeBindSymbol : string := "sys_bind".
Definition networkKprobeBindFetchargs : string :=
  "fd=%di sa_family=+0(%si):u16 " +:+
  "sin_port=+2(%si):u16 sin_addr=+4(%si):u32 " +:+
  "sun_path=+2(%si):string " +:+
  "sin6_port=+2(%si):u16 sin6_addr_high=+8(%si):u64 sin6_addr_low=+16(%si):u64".

Definition networkKprobeConnectSymbol : string := "sys_connect".
Definition networkKprobeConnectFetchargs : string :=
  "fd=%di sa_family=+0(%si):u16 " +:+
  "sin_port=+2(%si):u16 sin_addr=+4(%si):u32 " +:+
  "sun_path=+2(%si):string " +:+
  "sin6_port=+2(%si):u16 sin6_addr_high=+8(%si):u64 sin6_addr_low=+16(%si):u64".

Definition networkKprobeSendmsgSymbol : string := "sys_sendmsg".
Definition networkKprobeSendmsgFetchargs : string :=
  "fd=%di sa_family=+0(+0(%si)):u16 " +:+
  "sin_port=+2(+0(%si)):u16 sin_addr=+4(+0(%si)):u32 " +:+
  "sun_path=+2(+0(%si)):string " +:+
  "sin6_port=+2(+0(%si)):u16 sin6_addr_high=+8(+0(%si)):u64 sin6_addr_low=+16(+0(%si)):u64".

Definition networkKprobeSendtoSymbol : string := "sys_sendto".
Definition networkKprobeSendtoFetchargs : string :=
  "fd=%di sa_family=+0(%r8):u16 " +:+
  "sin_port=+2(%r8):u16 sin_addr=+4(%r8):u32 " +:+
  "sun_path=+2(%r8):string " +:+
  "sin6_port=+2(%r8):u16 sin6_addr_high=+8(%r8):u64 sin6_addr_low=+16(%r8):u64".

Definition RegisterNetworkAcceptAttemptEventFilter (expr : Expression) : M unit :=
  let! _ := registerTracepoint "syscalls/sys_enter_accept" fn_handleSysEnterAccept expr in
  let! _ := registerTracepoint "syscalls/sys_enter_accept4" fn_handleSysEnterAccept expr in
  ret tt.

Definition RegisterNetworkAcceptResultEventFilter (expr : Expression) : M unit :=
  let! _ := registerTracepoint "syscalls/sys_exit_accept" fn_handleSysExitAccept expr in
  let! _ := registerTracepoint "syscalls/sys_exit_accept4" fn_handleSysExitAccept expr in
  ret tt.

Definition RegisterNetworkBindAttemptEventFilter (expr : Expression) : M unit :=
  let! _ := registerKprobe networkKprobeBindSymbol false
              networkKprobeBindFetchargs fn_handleSysBind expr false in
  ret tt.

Definition RegisterNetworkBindResultEventFilter (expr : Expression) : M unit :=
  let! _ := registerTracepoint "syscalls/sys_exit_bind" fn_handleSysExitBind expr in
  ret tt.

Definition RegisterNetworkConnectAttemptEventFilter (expr : Expression) : M unit :=
  let! _ := registerKprobe networkKprobeConnectSymbol false
              networkKprobeConnectFetchargs fn_handleSysConnect expr false in
  ret tt.

Definition RegisterNetworkConnectResultEventFilter (expr : Expression) : M unit :=
  let! _ := registerTracepoint "syscalls/sys_exit_connect" fn_handleSysExitConnect expr in
  ret tt.

Definition RegisterNetworkListenAttemptEventFilter (expr : Expression) : M unit :=
  let! _ := registerTracepoint "syscalls/sys_enter_listen" fn_handleSysEnterListen expr in
  ret tt.

Definition RegisterNetworkListenResultEventFilter (expr : Expression) : M unit :=
  let! _ := registerTracepoint "syscalls/sys_exit_listen" fn_handleSysExitListen expr in
  ret tt.

Definition RegisterNetworkRecvfromAttemptEventFilter (expr : Expression) : M unit :=
  let! _ := registerTracepoint "syscalls/sys_enter_recvfrom" fn_handleSysEnterRecvfrom expr in
  let! _ := registerTracepoint "syscalls/sys_enter_recvmsg" fn_handleSysEnterRecvfrom expr in
  ret tt.

Definition RegisterNetworkRecvfromResultEventFilter (expr : Expression) : M unit :=
  let! _ := registerTracepoint "syscalls/sys_exit_recvfrom" fn_handleSysExitRecvfrom expr in
  let! _ := registerTracepoint "syscalls/sys_exit_recvmsg" fn_handleSysExitRecvfrom expr in
  ret tt.

Definition RegisterNetworkSendtoAttemptEventFilter (expr : Expression) : M unit :=
  let! _ := registerKprobe networkKprobeSendmsgSymbol false
              networkKprobeSendmsgFetchargs fn_handleSysSendto expr false in
  let! _ := registerKprobe networkKprobeSendtoSymbol false
              networkKprobeSendtoFetchargs fn_handleSysSendto expr false in
  ret tt.

Definition RegisterNetworkSendtoResultEventFilter (expr : Expression) : M unit :=
  let! _ := registerTracepoint "syscalls/sys_exit_sendmsg" fn_handleSysExitSendto expr in
  let! _ := registerTracepoint "syscalls/sys_exit_sendto" fn_handleSysExitSendto expr in
  ret tt.

(** The field-type declaration that goes with each handler's event
    source, as the declarations' own comments assign them. *)
Definition declaredTypes (h : Handler) : gmap string ValueType :=
  match h with
  | fn_handleDummySysEnter => ∅
  | fn_handleSyscallTraceEnter => SyscallEnterEventTypes
  | fn_handleSysExit => SyscallExitEventTypes
  | fn_handleSysEnterAccept | fn_handleSysEnterRecvfrom =>
      NetworkAttemptEventTypes
  | fn_handleSysBind | fn_handleSysConnect | fn_handleSysSendto =>
      NetworkAttemptWithAddressEventTypes
  | fn_handleSysEnterListen => NetworkListenAttemptEventTypes
  | fn_handleSysExitAccept | fn_handleSysExitBind | fn_handleSysExitConnect
  | fn_handleSysExitListen | fn_handleSysExitRecvfrom
  | fn_handleSysExitSendto => NetworkResultEventTypes
  end.

(* ================================================================= *)
(** ** Vocabulary of the properties *)

(** *** Reading an event by sample field name *)

Definition addressField (addr : NetworkAddressTelemetryEventData)
    (name : string) : option Value :=
  if String.eqb name "sa_family" then Some (VUnsignedInt16 (Family addr))
  else if String.eqb name "sun_path" then Some (VString (UnixPath addr))
  else if String.eqb name "sin_addr" then Some (VUnsignedInt32 (IPv4Address addr))
  else if String.eqb name "sin_port" then Some (VUnsignedInt16 (IPv4Port addr))
  else if String.eqb name "sin6_addr_high" then
    Some (VUnsignedInt64 (IPv6AddressHigh addr))
  else if String.eqb name "sin6_addr_low" then
    Some (VUnsignedInt64 (IPv6AddressLow addr))
  else if String.eqb name "sin6_port" then Some (VUnsignedInt16 (IPv6Port addr))
  else None.

Definition attemptField (a : NetworkAttemptTelemetryEventData)
    (name : string) : option Value :=
  if String.eqb name "fd" then Some (VUnsignedInt64 (FD a)) else None.

Definition resultField (r : NetworkResultTelemetryEventData)
    (name : string) : option Value :=
  if String.eqb name "ret" then Some (VSignedInt64 (Return r)) else None.

Definition argumentIndex (name : string) : option nat :=
  if String.eqb name "arg0" then Some 0%nat
  else if String.eqb name "arg1" then Some 1%nat
  else if String.eqb name "arg2" then Some 2%nat
  else if String.eqb name "arg3" then Some 3%nat
  else if String.eqb name "arg4" then Some 4%nat
  else if String.eqb name "arg5" then Some 5%nat
  else None.

(** The record field of an event that holds the sample field [name]. *)
Definition eventField {T} (e : TelemetryEvent T) (name : string)
    : option Value :=
  match e with
  | SyscallEnterTelemetryEvent _ id args =>
      if String.eqb name "id" then Some (VSignedInt64 id)
      else match argumentIndex name with
           | Some i => VUnsignedInt64 <$> (args !! i)
           | None => None
           end
  | SyscallExitTelemetryEvent _ id r =>
      if String.eqb name "id" then Some (VSignedInt64 id)
      else if String.eqb name "ret" then Some (VSignedInt64 r)
      else None
  | NetworkAcceptAttemptTelemetryEvent _ a
  | NetworkRecvfromAttemptTelemetryEvent _ a => attemptField a name
  | NetworkBindAttemptTelemetryEvent _ a addr
  | NetworkConnectAttemptTelemetryEvent _ a addr
  | NetworkSendtoAttemptTelemetryEvent _ a addr =>
      match attemptField a name with
      | Some v => Some v
      | None => addressField addr name
      end
  | NetworkListenAttemptTelemetryEvent _ a backlog =>
      if String.eqb name "backlog" then Some (VUnsignedInt64 backlog)
      else attemptField a name
  | NetworkAcceptResultTelemetryEvent _ r
  | NetworkBindResultTelemetryEvent _ r
  | NetworkConnectResultTelemetryEvent _ r
  | NetworkListenResultTelemetryEvent _ r
  | NetworkRecvfromResultTelemetryEvent _ r
  | NetworkSendtoResultTelemetryEvent _ r => resultField r name
  end.

(** The event struct each handler declares with [var e]. *)
Definition producedBy {T} (h : Handler) (e : TelemetryEvent T) : bool :=
  match h, e with
  | fn_handleSyscallTraceEnter, SyscallEnterTelemetryEvent _ _ _
  | fn_handleSysExit, SyscallExitTelemetryEvent _ _ _
  | fn_handleSysEnterAccept, NetworkAcceptAttemptTelemetryEvent _ _
  | fn_handleSysExitAccept, NetworkAcceptResultTelemetryEvent _ _
  | fn_handleSysBind, NetworkBindAttemptTelemetryEvent _ _ _
  | fn_handleSysExitBind, NetworkBindResultTelemetryEvent _ _
  | fn_handleSysConnect, NetworkConnectAttemptTelemetryEvent _ _ _
  | fn_handleSysExitConnect, NetworkConnectResultTelemetryEvent _ _
  | fn_handleSysEnterListen, NetworkListenAttemptTelemetryEvent _ _ _
  | fn_handleSysExitListen, NetworkListenResultTelemetryEvent _ _
  | fn_handleSysEnterRecvfrom, NetworkRecvfromAttemptTelemetryEvent _ _
  | fn_handleSysExitRecvfrom, NetworkRecvfromResultTelemetryEvent _ _
  | fn_handleSysSendto, NetworkSendtoAttemptTelemetryEvent _ _ _
  | fn_handleSysExitSendto, NetworkSendtoResultTelemetryEvent _ _ => true
  | _, _ => false
  end.

(** *** Reading the engine's call log *)

(** A [RegisterTracepoint] call for a dummy probe, whatever the answer. *)
Definition isDummyRegistration (c : Call) : bool :=
  match c with
  | RegisterTracepoint _ fn_handleDummySysEnter _ _ _ => true
  | _ => false
  end.

(** A dummy-probe registration that the engine accepted. *)
Definition isDummyRegistered (c : Call) : bool :=
  match c with
  | RegisterTracepoint _ fn_handleDummySysEnter _ _ (Registered _) => true
  | _ => false
  end.

Definition isUnregisterEvent (c : Call) : bool :=
  match c with
  | UnregisterEvent _ => true
  | _ => false
  end.

Definition isTracepointQuery (c : Call) : bool :=
  match c with
  | DoesTracepointExist _ _ => true
  | _ => false
  end.

Definition countCalls (p : Call -> bool) (l : list Call) : nat :=
  length (filter (fun c => p c = true) l).

(** Walks the log and follows the global dummy probe: [Some true] while it
    is registered, [Some false] while it is not, [None] once the log has
    registered it twice in a row or unregistered it while it was not
    registered. *)
Definition follow (r : option bool) (c : Call) : option bool :=
  match r with
  | None => None
  | Some registered =>
      if isDummyRegistered c then
        (if registered then None else Some true)
      else if isUnregisterEvent c then
        (if registered then Some false else None)
      else Some registered
  end.

Definition probeHistory (l : list Call) : option bool :=
  foldl follow (Some false) l.

(** The event ids that dummy-probe registrations were given. *)
Definition dummyEventIDs (l : list Call) : list Z :=
  omap (fun c => match c with
                 | RegisterTracepoint _ fn_handleDummySysEnter _ _ (Registered id) =>
                     Some id
                 | _ => None
                 end) l.

Definition unregisteredIDs (l : list Call) : list Z :=
  omap (fun c => match c with
                 | UnregisterEvent id => Some id
                 | _ => None
                 end) l.

(** *** Shapes of operation sequences *)

Definition isRelease (o : Op) : bool :=
  match o with
  | Release => true
  | Acquire => false
  end.

Definition releases (ops : list Op) : nat :=
  length (filter (fun o => isRelease o = true) ops).

(** How many acquires reported success. *)
Definition successes (bs : list bool) : nat :=
  length (filter (fun b => b = true) bs).

(** With [d] handles outstanding: every release has a handle to release,
    and no handle is left at the end. *)
Fixpoint matched (d : nat) (ops : list Op) : bool :=
  match ops with
  | [] => Nat.eqb d 0
  | Acquire :: ops' => matched (S d) ops'
  | Release :: ops' =>
      match d with
      | O => false
      | S d' => matched d' ops'
      end
  end.

(** With [d] handles outstanding: how many times the number of
    outstanding handles comes back to zero. *)
Fixpoint spans (d : nat) (ops : list Op) : nat :=
  match ops with
  | [] => 0
  | Acquire :: ops' => spans (S d) ops'
  | Release :: ops' =>
      match d with
      | O => spans O ops'
      | S O => S (spans O ops')
      | S d' => spans d' ops'
      end
  end.

(** An engine that accepts every registration. *)
Definition accepting (ans : nat -> Answer) : Prop :=
  forall n, exists id, ans n = Registered id.

(** *** More readings of the call log *)

(** A kprobe registration that the engine accepted. *)
Definition isKprobeRegistered (c : Call) : bool :=
  match c with
  | RegisterKprobe _ _ _ _ _ _ (Registered _) => true
  | _ => false
  end.

(** The event ids that the engine gave to probes with a real handler,
    the ones a subscription keeps a handle for. *)
Definition handleEventIDs (l : list Call) : list Z :=
  omap (fun c => match c with
                 | RegisterKprobe _ _ _ _ _ _ (Registered id) => Some id
                 | RegisterTracepoint _ h _ _ (Registered id) =>
                     match h with
                     | fn_handleDummySysEnter => None
                     | _ => Some id
                     end
                 | _ => None
                 end) l.

(** Every event id that the engine handed out, in order. *)
Definition eventIDs (l : list Call) : list Z :=
  omap (fun c => match c with
                 | RegisterKprobe _ _ _ _ _ _ (Registered id) => Some id
                 | RegisterTracepoint _ _ _ _ (Registered id) => Some id
                 | _ => None
                 end) l.

(** A query for the raw tracepoint opens every run of
    [initSyscallNames]. *)
Definition isResolution (c : Call) : bool :=
  match c with
  | DoesTracepointExist name _ => String.eqb name "raw_syscalls/sys_enter"
  | _ => false
  end.

(** What a syscall-enter kprobe registration must look like. *)
Definition kprobeSymbolFor (syms : string -> bool) : string :=
  if syms "syscall_trace_enter_phase1" then "syscall_trace_enter_phase1"
  else "syscall_trace_enter".

Definition syscallEnterKprobeOk (syms : string -> bool) (filter : Expression)
    (c : Call) : Prop :=
  match c with
  | RegisterKprobe symbol onReturn fetchargs h _ f _ =>
      symbol = kprobeSymbolFor syms /\
      onReturn = false /\
      fetchargs =
        "id=+120(%di):s64 arg0=+112(%di):u64 arg1=+104(%di):u64 arg2=+96(%di):u64 arg3=+56(%di):u64 arg4=+72(%di):u64 arg5=+64(%di):u64" /\
      h = fn_handleSyscallTraceEnter /\
      f = filter
  | _ => True
  end.

(** *** Several subscriptions on one sensor *)

Definition newSubscription : Subscription := mkSubscription 0 ∅ [].

(** Runs [m] with [s] as the receiver and gives [s] back as [m] left it;
    the receiver that was current comes back afterwards. *)
Definition onSubscription {A} (s : Subscription) (m : M A)
    : M (A * Subscription) :=
  let! previous := gets sub in
  do! modify (set_sub s) in
  let! a := m in
  let! s' := gets sub in
  do! modify (set_sub previous) in
  ret (a, s').

(** Two subscriptions ask for syscall-enter events, then the first one is
    torn down. *)
Definition subscribeTwiceUnsubscribeOnce (filterA filterB : Expression)
    : M (Subscription * Subscription) :=
  let! ra := onSubscription newSubscription
               (RegisterSyscallEnterEventFilter filterA) in
  let! rb := onSubscription newSubscription
               (RegisterSyscallEnterEventFilter filterB) in
  let! rc := onSubscription (snd ra) Subscription_Close in
  ret (snd rc, snd rb).

(** The registration calls that resolve the syscall names on first use. *)
Inductive Registration : Type :=
| SyscallEnter (filter : Expression)
| SyscallExit (filter : Expression).

Definition register (r : Registration) : M unit :=
  match r with
  | SyscallEnter filter => RegisterSyscallEnterEventFilter filter
  | SyscallExit filter => RegisterSyscallExitEventFilter filter
  end.

Definition registerAll (rs : list Registration) : M unit :=
  forEach rs register.

(** *** Address data of an event *)

Definition addressOf {T} (e : TelemetryEvent T)
    : option NetworkAddressTelemetryEventData :=
  match e with
  | NetworkBindAttemptTelemetryEvent _ _ addr
  | NetworkConnectAttemptTelemetryEvent _ _ addr
  | NetworkSendtoAttemptTelemetryEvent _ _ addr => Some addr
  | _ => None
  end.

Definition noUnixPath (addr : NetworkAddressTelemetryEventData) : Prop :=
  UnixPath addr = "".

Definition noIPv4 (addr : NetworkAddressTelemetryEventData) : Prop :=
  IPv4Address addr = 0 /\ IPv4Port addr = 0.

Definition noIPv6 (addr : NetworkAddressTelemetryEventData) : Prop :=
  IPv6AddressHigh addr = 0 /\ IPv6AddressLow addr = 0 /\ IPv6Port addr = 0.

(** The engine used in the worked examples: it accepts every call and
    hands out the call's position as the identifier. *)
Definition acceptingEngine : nat -> Answer := fun n => Registered (Z.of_nat n).

(** What stays put across the dummy-probe operations. *)
Definition sameSetting (st st' : State) : Prop :=
  tracepoints (monitor (sensor st')) = tracepoints (monitor (sensor st)) /\
  answers (monitor (sensor st')) = answers (monitor (sensor st)) /\
  kernelSymbols (sensor st') = kernelSymbols (sensor st) /\
  ContainerCache_EventGroupID (sensor st') = ContainerCache_EventGroupID (sensor st) /\
  globals st' = globals st /\
  kernelVersion st' = kernelVersion st.

(** An engine that refuses its [k]-th call and accepts the others. *)
Definition refusingAt (k : nat) : nat -> Answer :=
  fun n => if Nat.eqb n k then Refused "refused" else Registered (Z.of_nat n).

(** A 4.0.0 kernel with every tracepoint and symbol present, and the
    accepting engine. *)
Definition exampleState : State :=
  initial (fun _ => true) acceptingEngine (fun _ => true) (4, 0, 0) 1.

(** The same kernel with an engine that accepts the dummy tracepoint and
    refuses the kprobe that follows it. *)
Definition kprobeRefused : State :=
  initial (fun _ => true) (refusingAt 2) (fun _ => true) (4, 0, 0) 1.

(** A 4.0.0 kernel without the symbol syscall_trace_enter_phase1. *)
Definition legacySymbol : State :=
  initial (fun _ => true) acceptingEngine
    (fun s => negb (String.eqb s "syscall_trace_enter_phase1")) (4, 0, 0) 1.

(** A kernel with no tracepoint at all. *)
Definition noTracepoints : State :=
  initial (fun _ => false) acceptingEngine (fun _ => true) (4, 0, 0) 1.

(** A 2.6.32 kernel. *)
Definition oldKernel : State :=
  initial (fun _ => true) acceptingEngine (fun _ => true) (2, 6, 32) 1.

Definition result {A} (o : Outcome A) (default : A) : A :=
  match o with
  | Ok a _ => a
  | Fatal _ => default
  end.

(** A dummy-probe registration names the event group [g] or [g']. *)
Definition dummyInGroup (g g' : Z) (c : Call) : Prop :=
  match c with
  | RegisterTracepoint _ fn_handleDummySysEnter group _ _ =>
      group = g \/ group = g'
  | _ => True
  end.

Definition majorOf (st : State) : Z := fst (fst (kernelVersion st)).

(** The names that resolution should settle on, as the spec words it:
    the raw namespace when its enter tracepoint exists, else the syscalls
    namespace when its enter tracepoint exists, else none. *)
Definition resolvedNames (tps : string -> bool) : option (string * string) :=
  if tps "raw_syscalls/sys_enter" then
    Some ("raw_syscalls/sys_enter", "raw_syscalls/sys_exit")
  else if tps "syscalls/sys_enter" then
    Some ("syscalls/sys_enter", "syscalls/sys_exit")
  else None.

Definition namesOf (st : State) : string * string :=
  (syscallEnterName (globals st), syscallExitName (globals st)).

(** *** Example samples *)

(** An envelope that is just the pid, and an initialisation that succeeds
    on the samples that carry one. *)
Definition exampleInit (d : Z) (sample : Sample) : bool * Z :=
  match sample !! "common_pid" with
  | Some (VSignedInt64 pid) => (true, pid)
  | _ => (false, d)
  end.

(** Scenario B: bind to 127.0.0.1:80. *)
Definition bindSample : Sample :=
  list_to_map [
    ("common_pid", VSignedInt64 4242);
    ("fd", VUnsignedInt64 3);
    ("sa_family", VUnsignedInt16 2);
    ("sin_port", VUnsignedInt16 80);
    ("sin_addr", VUnsignedInt32 0x7F000001)
  ].

Definition bindAddress : NetworkAddressTelemetryEventData :=
  mkNetworkAddress 2 "" 0x7F000001 80 0 0 0.

Definition bindEvent : TelemetryEvent Z :=
  NetworkBindAttemptTelemetryEvent 4242 (mkNetworkAttempt 3) bindAddress.

(** A bind sample that lost its port and address. *)
Definition sparseSample : Sample :=
  list_to_map [
    ("common_pid", VSignedInt64 4242);
    ("sa_family", VUnsignedInt16 2)
  ].

(** A sendto sample with an address family the decoder does not know
    (17, AF_PACKET). *)
Definition packetSample : Sample :=
  list_to_map [
    ("common_pid", VSignedInt64 4242);
    ("fd", VUnsignedInt64 3);
    ("sa_family", VUnsignedInt16 17);
    ("sin_port", VUnsignedInt16 80)
  ].

Definition packetAddress : NetworkAddressTelemetryEventData :=
  mkNetworkAddress 17 "" 0 0 0 0 0.

Definition packetEvent : TelemetryEvent Z :=
  NetworkSendtoAttemptTelemetryEvent 4242 (mkNetworkAttempt 3) packetAddress.

(** Scenario A: execve (59) with six register values. *)
Definition execveSample : Sample :=
  list_to_map [
    ("common_pid", VSignedInt64 4242);
    ("id", VSignedInt64 59);
    ("arg0", VUnsignedInt64 11);
    ("arg1", VUnsignedInt64 12);
    ("arg2", VUnsignedInt64 13);
    ("arg3", VUnsignedInt64 14);
    ("arg4", VUnsignedInt64 15);
    ("arg5", VUnsignedInt64 16)
  ].

(* ================================================================= *)
(** ** The twelve network registration calls as one table *)

Inductive NetworkFilter : Type :=
| AcceptAttempt
| AcceptResult
| BindAttempt
| BindResult
| ConnectAttempt
| ConnectResult
| ListenAttempt
| ListenResult
| RecvfromAttempt
| RecvfromResult
| SendtoAttempt
| SendtoResult.

Definition registerNetwork (nf : NetworkFilter) : Expression -> M unit :=
  match nf with
  | AcceptAttempt => RegisterNetworkAcceptAttemptEventFilter
  | AcceptResult => RegisterNetworkAcceptResultEventFilter
  | BindAttempt => RegisterNetworkBindAttemptEventFilter
  | BindResult => RegisterNetworkBindResultEventFilter
  | ConnectAttempt => RegisterNetworkConnectAttemptEventFilter
  | ConnectResult => RegisterNetworkConnectResultEventFilter
  | ListenAttempt => RegisterNetworkListenAttemptEventFilter
  | ListenResult => RegisterNetworkListenResultEventFilter
  | RecvfromAttempt => RegisterNetworkRecvfromAttemptEventFilter
  | RecvfromResult => RegisterNetworkRecvfromResultEventFilter
  | SendtoAttempt => RegisterNetworkSendtoAttemptEventFilter
  | SendtoResult => RegisterNetworkSendtoResultEventFilter
  end.

(** How many probes each call asks the engine for, and the handler it
    gives them. *)
Definition probeCount (nf : NetworkFilter) : nat :=
  match nf with
  | AcceptAttempt | AcceptResult | RecvfromAttempt | RecvfromResult
  | SendtoAttempt | SendtoResult => 2
  | _ => 1
  end.

Definition handlerOf (nf : NetworkFilter) : Handler :=
  match nf with
  | AcceptAttempt => fn_handleSysEnterAccept
  | AcceptResult => fn_handleSysExitAccept
  | BindAttempt => fn_handleSysBind
  | BindResult => fn_handleSysExitBind
  | ConnectAttempt => fn_handleSysConnect
  | ConnectResult => fn_handleSysExitConnect
  | ListenAttempt => fn_handleSysEnterListen
  | ListenResult => fn_handleSysExitListen
  | RecvfromAttempt => fn_handleSysEnterRecvfrom
  | RecvfromResult => fn_handleSysExitRecvfrom
  | SendtoAttempt => fn_handleSysSendto
  | SendtoResult => fn_handleSysExitSendto
  end.

(** A probe registration for handler [h] in group [group] with filter
    [filter]: a tracepoint, or a kprobe that is not a return probe. *)
Definition probeFor (h : Handler) (group : Z) (filter : Expression)
    (c : Call) : Prop :=
  match c with
  | RegisterTracepoint _ h' g f _ => h' = h /\ g = group /\ f = filter
  | RegisterKprobe _ onReturn _ h' g f _ =>
      onReturn = false /\ h' = h /\ g = group /\ f = filter
  | _ => False
  end.

(** *** Further readings of the call log *)

Definition isKprobeCall (c : Call) : bool :=
  match c with
  | RegisterKprobe _ _ _ _ _ _ _ => true
  | _ => false
  end.

(** The engine refused the subscription's event group or the dummy
    tracepoint. *)
Definition isRefusedSetup (c : Call) : bool :=
  match c with
  | RegisterEventGroup (Refused _) => true
  | RegisterTracepoint _ fn_handleDummySysEnter _ _ (Refused _) => true
  | _ => false
  end.

(** The engine refused the subscription's event group. *)
Definition isGroupRefused (c : Call) : bool :=
  match c with
  | RegisterEventGroup (Refused _) => true
  | _ => false
  end.

Definition isEventGroupCall (c : Call) : bool :=
  match c with
  | RegisterEventGroup _ => true
  | _ => false
  end.

(** The event group that the engine created is [g]. *)
Definition createdGroup (g : Z) (c : Call) : Prop :=
  match c with
  | RegisterEventGroup (Registered id) => id = g
  | _ => True
  end.

(** What the local strategy sends to the engine for a subscription that
    ends up with event group [g]: one request for an event group, the
    group created being [g]; then, unless that was refused, one
    registration of the dummy tracepoint, and dummy tracepoints in group
    [g] only. *)
Definition localSetup (g : Z) (new : list Call) : Prop :=
  countCalls isEventGroupCall new = 1%nat /\
  Forall (createdGroup g) new /\
  countCalls isDummyRegistration new
  = (if Nat.eqb (countCalls isGroupRefused new) 0 then 1 else 0)%nat /\
  Forall (dummyInGroup g g) new.

(** A dummy registration names the tracepoint [name], the group [group]
    and the filter that no syscall satisfies. *)
Definition dummyRegistrationOk (name : string) (group : Z) (c : Call) : Prop :=
  match c with
  | RegisterTracepoint n fn_handleDummySysEnter g f _ =>
      n = name /\ g = group /\ f = "id == 0x7fffffff"
  | _ => True
  end.

(** Walks the log with the event id of the latest accepted dummy
    registration; the flag falls once an [UnregisterEvent] names another
    id. *)
Definition trackID (r : option Z * bool) (c : Call) : option Z * bool :=
  match c with
  | RegisterTracepoint _ fn_handleDummySysEnter _ _ (Registered id) =>
      (Some id, snd r)
  | UnregisterEvent id =>
      (fst r, snd r && match fst r with
                       | Some id' => Z.eqb id id'
                       | None => false
                       end)
  | _ => r
  end.

Definition unregistersLatest (l : list Call) : bool :=
  snd (foldl trackID (None, true) l).

(** *** Typed values *)

Definition typeOf (v : Value) : ValueType :=
  match v with
  | VString _ => ValueTypeString
  | VSignedInt64 _ => ValueTypeSignedInt64
  | VUnsignedInt16 _ => ValueTypeUnsignedInt16
  | VUnsignedInt32 _ => ValueTypeUnsignedInt32
  | VUnsignedInt64 _ => ValueTypeUnsignedInt64
  end.

(** The address fields, whose decoding depends on the family. *)
Definition familyDependent (name : string) : bool :=
  String.eqb name "sun_path" || String.eqb name "sin_addr"
  || String.eqb name "sin_port" || String.eqb name "sin6_port"
  || String.eqb name "sin6_addr_high" || String.eqb name "sin6_addr_low".

(* ================================================================= *)
(** ** The telemetryd example: connecting to the Pub/Sub topic *)

Module telemetryd.

(** Go's [strings.Split(s, sep)] for a one-byte separator: the pieces
    between the separators, in order; one piece, [s] itself, when the
    separator does not occur. *)
Fixpoint Split (sep : Ascii.ascii) (s : string) : list string :=
  match s with
  | EmptyString => [EmptyString]
  | String c s' =>
      if Ascii.eqb c sep then EmptyString :: Split sep s'
      else match Split sep s' with
           | [] => [String c EmptyString]
           | p :: ps => String c p :: ps
           end
  end.

Definition slash : Ascii.ascii := Ascii.ascii_of_nat 47.

(** The command-line flags that [connectToPubsubTopic] reads. *)
Record Flags : Type := mkFlags {
  credentialsFile : string;
  useEmulator : bool
}.

Inductive ClientOption : Type :=
| WithoutAuthentication
| WithGRPCDialOption_WithInsecure
| WithCredentialsFile (file : string).

(** The Pub/Sub service is external: what [pubsub.NewClient] answers for
    a project and options (an error or none), and what [Exists] answers
    for a topic of that client. *)
Record Pubsub : Type := mkPubsub {
  NewClient : string -> list ClientOption -> option string;
  Exists : string -> list ClientOption -> string -> bool * option string
}.

Inductive PubsubCall : Type :=
| CallNewClient (project : string) (options : list ClientOption)
| CallExists (project : string) (topic : string).

(** A topic handle: the client's project and the topic id. *)
Definition Topic : Type := (string * string)%type.

(** How a call ends: it returns, or the runtime panics on an index out of
    range. *)
Inductive Ending (A : Type) : Type :=
| Returns (a : A)
| Panics.

Arguments Returns {A} a.
Arguments Panics {A}.

(** The result pair [(topic, err)], either of which may be nil, and the
    calls made to the service on the way. *)
Definition connectToPubsubTopic (ps : Pubsub) (flags : Flags) (path : string)
    : list PubsubCall * Ending (option Topic * option string) :=
  let parts := Split slash path in
  match parts !! 0%nat with
  | None => ([], Panics)
  | Some p0 =>
      if negb (String.eqb p0 "projects") then
        ([], Returns (None, Some ("could not parse pubsub path " +:+ path)))
      else
        match parts !! 2%nat with
        | None => ([], Panics)
        | Some p2 =>
            if negb (String.eqb p2 "topics") then
              ([], Returns (None, Some ("could not parse pubsub path " +:+ path)))
            else
              match parts !! 1%nat, parts !! 3%nat with
              | Some project, Some topic =>
                  let options :=
                    if useEmulator flags then
                      [WithoutAuthentication; WithGRPCDialOption_WithInsecure]
                    else if (0 <? String.length (credentialsFile flags))%nat then
                      [WithCredentialsFile (credentialsFile flags)]
                    else [] in
                  match NewClient ps project options with
                  | Some err =>
                      ([CallNewClient project options], Returns (None, Some err))
                  | None =>
                      let calls := [CallNewClient project options;
                                    CallExists project topic] in
                      match Exists ps project options topic with
                      | (_, Some err) => (calls, Returns (None, Some err))
                      | (false, None) => (calls, Returns (None, None))
                      | (true, None) =>
                          (calls, Returns (Some (project, topic), None))
                      end
                  end
              | _, _ => ([], Panics)
              end
        end
  end.

(** A string without the separator. *)
Fixpoint free (sep : Ascii.ascii) (s : string) : bool :=
  match s with
  | EmptyString => true
  | String c s' => negb (Ascii.eqb c sep) && free sep s'
  end.

(** The client options that the flags ask for. *)
Definition optionsFor (flags : Flags) : list ClientOption :=
  if useEmulator flags then
    [WithoutAuthentication; WithGRPCDialOption_WithInsecure]
  else if (0 <? String.length (credentialsFile flags))%nat then
    [WithCredentialsFile (credentialsFile flags)]
  else [].

(** A service that has the topic events and no other; the emulator flag
    set next to a credentials file. *)
Definition examplePubsub : Pubsub :=
  mkPubsub (fun _ _ => None) (fun _ _ topic => (String.eqb topic "events", None)).

Definition exampleFlags : Flags := mkFlags "creds.json" true.

End telemetryd.

(** A 4.0.0 kernel whose engine refuses the dummy tracepoint. *)
Definition dummyRefused : State :=
  initial (fun _ => true) (refusingAt 1) (fun _ => true) (4, 0, 0) 1.

(** The bind sample of scenario B with one more field. *)
Definition bindSampleWithComm : Sample :=
  <["comm" := VString "nginx"]> bindSample.

(* ################################################################# *)
(** * Properties *)

(* ================================================================= *)
(** ** Wrap-around of the reference count *)

Lemma wrap_int64_id z : in_int64 z -> wrap_int64 z = z.
Proof.
  unfold in_int64, int64_min, int64_max, wrap_int64. intros H.
  rewrite Z.mod_small; lia.
Qed.

Lemma wrap_int64_range z : in_int64 (wrap_int64 z).
Proof.
  unfold in_int64, int64_min, int64_max, wrap_int64.
  pose proof (Z.mod_pos_bound (z + 2 ^ 63) (2 ^ 64) ltac:(lia)). lia.
Qed.

Lemma wrap_succ_one c : in_int64 c -> wrap_int64 (c + 1) = 1 <-> c = 0.
Proof.
  intros H. split.
  - intros E. destruct (Z.eq_dec c int64_max) as [->|Hne].
    + vm_compute in E. discriminate.
    + rewrite wrap_int64_id in E; unfold in_int64, int64_min, int64_max in *; lia.
  - intros ->. reflexivity.
Qed.

Lemma wrap_pred_zero c : in_int64 c -> wrap_int64 (c + -1) = 0 <-> c = 1.
Proof.
  intros H. split.
  - intros E. destruct (Z.eq_dec c int64_min) as [->|Hne].
    + vm_compute in E. discriminate.
    + rewrite wrap_int64_id in E; unfold in_int64, int64_min, int64_max in *; lia.
  - intros ->. reflexivity.
Qed.

Lemma wrap_succ_pred c : in_int64 c -> wrap_int64 (wrap_int64 (c + 1) + -1) = c.
Proof.
  intros H. destruct (Z.eq_dec c int64_max) as [->|Hne].
  - reflexivity.
  - rewrite (wrap_int64_id (c + 1)) by (unfold in_int64, int64_min, int64_max in *; lia).
    replace (c + 1 + -1) with c by lia. now apply wrap_int64_id.
Qed.

(** Past the largest value the count comes back at the smallest. *)
Example wrap_int64_at_max : wrap_int64 (int64_max + 1) = int64_min.
Proof. reflexivity. Qed.

(* ================================================================= *)
(** ** One acquire, one release *)

Ltac break_state st :=
  destruct st as [[[?tps ?ans ?log] ?cnt ?eid ?grp ?syms] ?g ?s ?ver].

Lemma acquire_effect st :
  exists b st',
    registerGlobalDummySyscallEvent st = Ok b st' /\
    sameSetting st st' /\
    eventSinks (sub st') = eventSinks (sub st) /\
    eventGroupID (sub st') = eventGroupID (sub st) /\
    if wrap_int64 (count_of st + 1) =? 1 then
      log_of st' =
        log_of st ++ [RegisterTracepoint (syscallEnterName (globals st))
                        fn_handleDummySysEnter
                        (ContainerCache_EventGroupID (sensor st))
                        "id == 0x7fffffff" (next_answer st)] /\
      match next_answer st with
      | Registered id =>
          b = true /\ count_of st' = 1 /\ dummySyscallEventID (sensor st') = id
      | Refused _ =>
          b = false /\ count_of st' = 0 /\
          dummySyscallEventID (sensor st') = dummySyscallEventID (sensor st)
      end
    else
      b = true /\ log_of st' = log_of st /\
      count_of st' = wrap_int64 (count_of st + 1) /\
      dummySyscallEventID (sensor st') = dummySyscallEventID (sensor st).
Proof.
  break_state st.
  unfold registerGlobalDummySyscallEvent, bind, atomic_AddInt64_dummySyscallEventCount.
  cbn [count_of sensor dummySyscallEventCount].
  destruct (wrap_int64 (cnt + 1) =? 1) eqn:E.
  - apply Z.eqb_eq in E. cbn.
    unfold next_answer; cbn.
    destruct (ans (length log)) as [id|err]; cbn.
    + do 2 eexists. split; [reflexivity|]. cbn. unfold sameSetting; cbn. rewrite E. tauto.
    + do 2 eexists. split; [reflexivity|]. cbn. unfold sameSetting; cbn. rewrite E. tauto.
  - do 2 eexists. split; [reflexivity|]. unfold sameSetting; cbn. tauto.
Qed.

Lemma release_effect st :
  exists st',
    run_unregisterFn releaseGlobalDummy st = Ok tt st' /\
    sameSetting st st' /\
    eventSinks (sub st') = eventSinks (sub st) /\
    eventGroupID (sub st') = eventGroupID (sub st) /\
    count_of st' = wrap_int64 (count_of st + -1) /\
    dummySyscallEventID (sensor st') = dummySyscallEventID (sensor st) /\
    log_of st' =
      if wrap_int64 (count_of st + -1) =? 0
      then log_of st ++ [UnregisterEvent (dummySyscallEventID (sensor st))]
      else log_of st.
Proof.
  break_state st.
  unfold run_unregisterFn, bind, atomic_AddInt64_dummySyscallEventCount, gets.
  cbn [count_of sensor dummySyscallEventCount].
  destruct (wrap_int64 (cnt + -1) =? 0) eqn:E.
  - eexists. split; [reflexivity|]. unfold sameSetting; cbn. tauto.
  - eexists. split; [reflexivity|]. unfold sameSetting; cbn. tauto.
Qed.

Lemma acquire_bounded st :
  Z.abs (count_of st) < int64_max ->
  exists b st',
    registerGlobalDummySyscallEvent st = Ok b st' /\
    sameSetting st st' /\
    ((count_of st = 0 /\
      log_of st' =
        log_of st ++ [RegisterTracepoint (syscallEnterName (globals st))
                        fn_handleDummySysEnter
                        (ContainerCache_EventGroupID (sensor st))
                        "id == 0x7fffffff" (next_answer st)] /\
      ((exists id, next_answer st = Registered id /\ b = true /\ count_of st' = 1) \/
       (exists err, next_answer st = Refused err /\ b = false /\ count_of st' = 0)))
     \/
     (count_of st <> 0 /\ b = true /\ log_of st' = log_of st /\
      count_of st' = count_of st + 1)).
Proof.
  intros Hb.
  assert (Hr : in_int64 (count_of st))
    by (unfold in_int64, int64_min, int64_max in *; lia).
  destruct (acquire_effect st) as (b & st' & Hrun & Hs & _ & _ & H).
  exists b, st'. split; [exact Hrun|]. split; [exact Hs|].
  destruct (wrap_int64 (count_of st + 1) =? 1) eqn:E.
  - apply Z.eqb_eq, wrap_succ_one in E; [|exact Hr].
    left. destruct H as [Hl Ha]. split; [exact E|]. split; [exact Hl|].
    destruct (next_answer st) as [id|err]; [left|right]; eexists; intuition eauto.
  - apply Z.eqb_neq in E. right.
    destruct H as (-> & Hl & Hc & _).
    rewrite wrap_int64_id in Hc
      by (unfold in_int64, int64_min, int64_max in *; lia).
    repeat split; try assumption.
    intros E0. apply E. now apply wrap_succ_one.
Qed.

Lemma release_bounded st :
  Z.abs (count_of st) < int64_max ->
  exists st',
    run_unregisterFn releaseGlobalDummy st = Ok tt st' /\
    sameSetting st st' /\
    count_of st' = count_of st - 1 /\
    ((count_of st = 1 /\
      log_of st' = log_of st ++ [UnregisterEvent (dummySyscallEventID (sensor st))])
     \/ (count_of st <> 1 /\ log_of st' = log_of st)).
Proof.
  intros Hb.
  assert (Hr : in_int64 (count_of st))
    by (unfold in_int64, int64_min, int64_max in *; lia).
  destruct (release_effect st) as (st' & Hrun & Hs & _ & _ & Hc & _ & Hl).
  exists st'. split; [exact Hrun|]. split; [exact Hs|].
  rewrite wrap_int64_id in Hc
    by (unfold in_int64, int64_min, int64_max in *; lia).
  split; [lia|].
  destruct (wrap_int64 (count_of st + -1) =? 0) eqn:E.
  - apply Z.eqb_eq, wrap_pred_zero in E; [|exact Hr]. now left.
  - apply Z.eqb_neq in E. right. split; [|exact Hl].
    intros E1. apply E. now apply wrap_pred_zero.
Qed.

(* ================================================================= *)
(** ** Sequences of acquires and releases *)

Lemma probeHistory_snoc l c : probeHistory (l ++ [c]) = follow (probeHistory l) c.
Proof. unfold probeHistory. now rewrite foldl_snoc. Qed.

Lemma countCalls_snoc p l c :
  countCalls p (l ++ [c]) = (countCalls p l + (if p c then 1 else 0))%nat.
Proof.
  unfold countCalls. rewrite filter_app, length_app. f_equal.
  cbn. destruct (p c); reflexivity.
Qed.

Lemma run_acquire ops st b st1 bs st2 :
  registerGlobalDummySyscallEvent st = Ok b st1 ->
  run ops st1 = Ok bs st2 ->
  run (Acquire :: ops) st = Ok (b :: bs) st2.
Proof. intros H1 H2. cbn [run]. unfold bind. now rewrite H1, H2. Qed.

Lemma run_release ops st st1 bs st2 :
  run_unregisterFn releaseGlobalDummy st = Ok tt st1 ->
  run ops st1 = Ok bs st2 ->
  run (Release :: ops) st = Ok bs st2.
Proof. intros H1 H2. cbn [run]. unfold bind. now rewrite H1. Qed.

Lemma sameSetting_trans a b c : sameSetting a b -> sameSetting b c -> sameSetting a c.
Proof. unfold sameSetting. intuition congruence. Qed.

Lemma sameSetting_refl a : sameSetting a a.
Proof. unfold sameSetting. tauto. Qed.

Lemma successes_cons b bs :
  successes (b :: bs) = ((if b then 1 else 0) + successes bs)%nat.
Proof. unfold successes. destruct b; reflexivity. Qed.

Lemma releases_cons o ops :
  releases (o :: ops) = ((if isRelease o then 1 else 0) + releases ops)%nat.
Proof. unfold releases. destruct o; reflexivity. Qed.

Lemma run_count ops : forall st,
  Z.abs (count_of st) + Z.of_nat (length ops) < 2 ^ 63 ->
  exists bs st',
    run ops st = Ok bs st' /\
    sameSetting st st' /\
    count_of st' = count_of st + Z.of_nat (successes bs) - Z.of_nat (releases ops).
Proof.
  induction ops as [|[|] ops IH]; intros st Hb; cbn [length] in Hb.
  - exists [], st. split; [reflexivity|]. split; [apply sameSetting_refl|].
    cbn. lia.
  - destruct (acquire_bounded st) as (b & st1 & Hrun & Hs & Hcase);
      [unfold int64_max; lia|].
    assert (Hc : count_of st1 = count_of st + (if b then 1 else 0)).
    { destruct Hcase as [(E & _ & [(id & _ & -> & ->)|(err & _ & -> & ->)])
                        |(_ & -> & _ & ->)]; lia. }
    destruct (IH st1) as (bs & st2 & Hrun2 & Hs2 & Hc2); [destruct b; lia|].
    exists (b :: bs), st2. split; [eapply run_acquire; eassumption|].
    split; [eapply sameSetting_trans; eassumption|].
    rewrite successes_cons, releases_cons. cbn [isRelease]. destruct b; lia.
  - destruct (release_bounded st) as (st1 & Hrun & Hs & Hc & _);
      [unfold int64_max; lia|].
    destruct (IH st1) as (bs & st2 & Hrun2 & Hs2 & Hc2); [lia|].
    exists bs, st2. split; [eapply run_release; eassumption|].
    split; [eapply sameSetting_trans; eassumption|].
    rewrite releases_cons. cbn [isRelease]. lia.
Qed.

Lemma run_history ops : forall st,
  Z.abs (count_of st) + Z.of_nat (length ops) < 2 ^ 63 ->
  probeHistory (log_of st) = Some (0 <? count_of st) ->
  exists bs st',
    run ops st = Ok bs st' /\
    probeHistory (log_of st') = Some (0 <? count_of st').
Proof.
  induction ops as [|[|] ops IH]; intros st Hb Hh; cbn [length] in Hb.
  - exists [], st. split; [reflexivity|exact Hh].
  - destruct (acquire_bounded st) as (b & st1 & Hrun & Hs & Hcase);
      [unfold int64_max; lia|].
    destruct (IH st1) as (bs & st2 & Hrun2 & Hh2).
    + destruct Hcase as [(E & _ & [(id & _ & _ & ->)|(err & _ & _ & ->)])
                        |(_ & _ & _ & ->)]; lia.
    + destruct Hcase as [(E & -> & [(id & -> & _ & ->)|(err & -> & _ & ->)])
                        |(Hne & _ & -> & ->)].
      * rewrite probeHistory_snoc, Hh, E. reflexivity.
      * rewrite probeHistory_snoc, Hh, E. reflexivity.
      * rewrite Hh. f_equal.
        destruct (0 <? count_of st) eqn:E1, (0 <? count_of st + 1) eqn:E2;
          try reflexivity; lia.
    + exists (b :: bs), st2. split; [eapply run_acquire; eassumption|exact Hh2].
  - destruct (release_bounded st) as (st1 & Hrun & Hs & Hc & Hcase);
      [unfold int64_max; lia|].
    destruct (IH st1) as (bs & st2 & Hrun2 & Hh2).
    + lia.
    + rewrite Hc. destruct Hcase as [(E & ->)|(Hne & ->)].
      * rewrite probeHistory_snoc, Hh, E. reflexivity.
      * rewrite Hh. f_equal.
        destruct (0 <? count_of st) eqn:E1, (0 <? count_of st - 1) eqn:E2;
          try reflexivity; lia.
    + exists bs, st2. split; [eapply run_release; eassumption|exact Hh2].
Qed.

Lemma run_matched ops : forall d st,
  accepting (answers (monitor (sensor st))) ->
  count_of st = Z.of_nat d ->
  Z.of_nat d + Z.of_nat (length ops) < 2 ^ 63 ->
  matched d ops = true ->
  exists bs st',
    run ops st = Ok bs st' /\
    count_of st' = 0 /\
    (countCalls isDummyRegistration (log_of st') + (if d is O then 0 else 1)
     = countCalls isDummyRegistration (log_of st) + spans d ops)%nat /\
    (countCalls isUnregisterEvent (log_of st')
     = countCalls isUnregisterEvent (log_of st) + spans d ops)%nat.
Proof.
  induction ops as [|[|] ops IH]; intros d st Hacc Hc Hb Hm;
    cbn [length] in Hb; cbn [matched] in Hm.
  - apply Nat.eqb_eq in Hm. subst d. exists [], st. cbn. repeat split; lia.
  - destruct (acquire_bounded st) as (b & st1 & Hrun & Hs & Hcase);
      [unfold int64_max; lia|].
    assert (Hacc1 : accepting (answers (monitor (sensor st1)))).
    { destruct Hs as (_ & -> & _). exact Hacc. }
    destruct (Hacc (length (log_of st))) as [id0 Hid0].
    fold (next_answer st) in Hid0.
    destruct Hcase as [(E & Hl & [(id & _ & _ & Hc1)|(err & Herr & _)])
                      |(Hne & _ & Hl & Hc1)].
    + destruct (IH 1%nat st1 Hacc1) as (bs & st2 & Hrun2 & Hc2 & Hr2 & Hu2);
        [lia|lia| |].
      { assert (d = 0%nat) by lia. now subst d. }
      exists (b :: bs), st2. split; [eapply run_acquire; eassumption|].
      split; [exact Hc2|].
      assert (d = 0%nat) by lia. subst d. cbn [spans].
      rewrite Hl, !countCalls_snoc in *. cbn in *. lia.
    + congruence.
    + destruct (IH (S d) st1 Hacc1) as (bs & st2 & Hrun2 & Hc2 & Hr2 & Hu2);
        [lia|lia|exact Hm|].
      exists (b :: bs), st2. split; [eapply run_acquire; eassumption|].
      split; [exact Hc2|].
      destruct d as [|d]; [lia|]. cbn [spans]. rewrite Hl in *. lia.
  - destruct d as [|d]; [discriminate|].
    destruct (release_bounded st) as (st1 & Hrun & Hs & Hc1 & Hcase);
      [unfold int64_max; lia|].
    assert (Hacc1 : accepting (answers (monitor (sensor st1)))).
    { destruct Hs as (_ & -> & _). exact Hacc. }
    destruct (IH d st1 Hacc1) as (bs & st2 & Hrun2 & Hc2 & Hr2 & Hu2);
      [lia|lia|exact Hm|].
    exists bs, st2. split; [eapply run_release; eassumption|].
    split; [exact Hc2|].
    destruct Hcase as [(E & Hl)|(Hne & Hl)].
    + assert (d = 0%nat) by lia. subst d. cbn [spans].
      rewrite Hl, !countCalls_snoc in *. cbn in *. lia.
    + destruct d as [|d]; [lia|]. cbn [spans]. rewrite Hl in *. lia.
Qed.

Lemma follow_counts l : forall b0 b,
  foldl follow (Some b0) l = Some b ->
  (countCalls isDummyRegistered l + (if b0 then 1 else 0)
   = countCalls isUnregisterEvent l + (if b then 1 else 0))%nat.
Proof.
  induction l as [|c l IH]; intros b0 b H.
  - cbn in H. injection H as <-. cbn. lia.
  - cbn [foldl] in H.
    assert (Hc : forall p, countCalls p (c :: l)
                  = ((if p c then 1 else 0) + countCalls p l)%nat).
    { intros p. unfold countCalls. cbn. destruct (p c); reflexivity. }
    rewrite !Hc.
    destruct (follow (Some b0) c) as [b1|] eqn:F.
    + apply IH in H. unfold follow in F.
      destruct (isDummyRegistered c) eqn:R, (isUnregisterEvent c) eqn:U, b0;
        try discriminate; injection F as <-;
        try (destruct c; discriminate); lia.
    + exfalso. clear -H. induction l as [|x l IH]; [discriminate|].
      cbn in H. now apply IH.
Qed.


(* ================================================================= *)
(** ** The shared dummy probe (kernel major version 3 and later) *)

(** C1, as amended.  On the operations that
    [RegisterSyscallEnterEventFilter] uses when the kernel major version
    is at least 3: take any sequence of acquires and releases in which
    every release follows an acquire it matches and every acquire is
    released, run it from a count of zero against an engine that accepts
    every registration.  Then the count is back at zero, and the engine
    has seen as many dummy [RegisterTracepoint] calls as [UnregisterEvent]
    calls: one of each for every time the number of outstanding acquires
    came back to zero.  It is exactly one of each when that happens only
    at the end of the sequence. *)
Theorem C1_registrations_per_span :
  forall st ops,
    accepting (answers (monitor (sensor st))) ->
    count_of st = 0 ->
    matched 0 ops = true ->
    Z.of_nat (length ops) < 2 ^ 63 ->
    exists bs st',
      run ops st = Ok bs st' /\
      count_of st' = 0 /\
      countCalls isDummyRegistration (log_of st')
        = (countCalls isDummyRegistration (log_of st) + spans 0 ops)%nat /\
      countCalls isUnregisterEvent (log_of st')
        = (countCalls isUnregisterEvent (log_of st) + spans 0 ops)%nat.
Proof.
  intros st ops Hacc Hc Hm Hb.
  destruct (run_matched ops 0%nat st Hacc Hc) as (bs & st' & H1 & H2 & H3 & H4);
    [lia|exact Hm|].
  exists bs, st'. repeat split; try assumption. lia.
Qed.

(** Two subscriptions hold the probe at once: one registration, one
    unregistration. *)
Lemma C1_registrations_per_span_witness :
  exists bs st',
    run [Acquire; Acquire; Release; Release]
        exampleState
      = Ok bs st' /\
    count_of st' = 0 /\
    countCalls isDummyRegistration (log_of st') = (0 + 1)%nat /\
    countCalls isUnregisterEvent (log_of st') = (0 + 1)%nat.
Proof.
  apply (C1_registrations_per_span
           exampleState
           [Acquire; Acquire; Release; Release]).
  - intros n. eexists. reflexivity.
  - reflexivity.
  - reflexivity.
  - reflexivity.
Defined.

(** C1 as stated fails: two acquires matched by two releases, the first
    subscription gone before the second arrives, on a 4.0.0 kernel with an
    engine that accepts everything.  The probe is registered twice and
    unregistered twice, not once. *)
Lemma C1_counterexample :
  matched 0 [Acquire; Release; Acquire; Release] = true /\
  exists bs st',
    run [Acquire; Release; Acquire; Release]
        exampleState
      = Ok bs st' /\
    bs = [true; true] /\
    countCalls isDummyRegistration (log_of st') = 2%nat /\
    countCalls isUnregisterEvent (log_of st') = 2%nat.
Proof.
  split; [reflexivity|]. do 2 eexists. split; [reflexivity|].
  repeat split.
Qed.

(** C2.  Whatever the sequence of acquires and releases, also with more
    releases than acquires, and whatever the engine answers: in the call
    log, accepted registrations of the dummy probe and [UnregisterEvent]
    calls alternate, starting with a registration.  No [UnregisterEvent]
    is issued unless a registration was accepted since the previous one, so
    extra releases never unregister a second time; the probe is registered
    at the end exactly when the count is positive. *)
Theorem C2_no_second_unregistration :
  forall st ops,
    count_of st = 0 ->
    probeHistory (log_of st) = Some false ->
    Z.of_nat (length ops) < 2 ^ 63 ->
    exists bs st',
      run ops st = Ok bs st' /\
      probeHistory (log_of st') = Some (0 <? count_of st') /\
      (countCalls isUnregisterEvent (log_of st')
       <= countCalls isDummyRegistered (log_of st'))%nat.
Proof.
  intros st ops Hc Hh Hb.
  destruct (run_history ops st) as (bs & st' & Hrun & Hh');
    [lia|now rewrite Hc|].
  exists bs, st'. split; [exact Hrun|]. split; [exact Hh'|].
  apply follow_counts in Hh'. cbn in Hh'.
  destruct (0 <? count_of st'); lia.
Qed.

(** One acquire and three releases: a single [UnregisterEvent]. *)
Lemma C2_no_second_unregistration_witness :
  exists bs st',
    run [Acquire; Release; Release; Release]
        exampleState
      = Ok bs st' /\
    probeHistory (log_of st') = Some (0 <? count_of st') /\
    (countCalls isUnregisterEvent (log_of st')
     <= countCalls isDummyRegistered (log_of st'))%nat.
Proof.
  apply (C2_no_second_unregistration
           exampleState
           [Acquire; Release; Release; Release]).
  - reflexivity.
  - reflexivity.
  - reflexivity.
Defined.

(** C3, as amended.  From any count [c] that the sequence cannot push out
    of the [int64] range: (1) an acquire calls the engine only when the
    count is 0, and then makes exactly one [RegisterTracepoint] call for
    the dummy probe; (2) a release calls the engine only when the count is
    1, and then makes exactly one [UnregisterEvent] call, for the stored
    event id; (3) after the whole sequence the count is [c] plus the
    number of acquires that succeeded minus the number of releases.  So,
    starting from zero, the count is negative exactly when the releases
    outnumber the successful acquires, and never otherwise. *)
Theorem C3_count_and_side_effects :
  forall st ops,
    Z.abs (count_of st) + Z.of_nat (length ops) < 2 ^ 63 ->
    (exists b st1,
       registerGlobalDummySyscallEvent st = Ok b st1 /\
       (count_of st <> 0 -> log_of st1 = log_of st) /\
       (count_of st = 0 ->
        exists name group filter a,
          log_of st1 =
            log_of st ++ [RegisterTracepoint name fn_handleDummySysEnter
                            group filter a])) /\
    (exists st1,
       run_unregisterFn releaseGlobalDummy st = Ok tt st1 /\
       (count_of st <> 1 -> log_of st1 = log_of st) /\
       (count_of st = 1 ->
        log_of st1 =
          log_of st ++ [UnregisterEvent (dummySyscallEventID (sensor st))])) /\
    (exists bs st',
       run ops st = Ok bs st' /\
       count_of st' =
         count_of st + Z.of_nat (successes bs) - Z.of_nat (releases ops)).
Proof.
  intros st ops Hb.
  assert (Hr : in_int64 (count_of st))
    by (unfold in_int64, int64_min, int64_max; lia).
  split; [|split].
  - destruct (acquire_effect st) as (b & st1 & Hrun & _ & _ & _ & H).
    exists b, st1. split; [exact Hrun|].
    destruct (wrap_int64 (count_of st + 1) =? 1) eqn:E.
    + apply Z.eqb_eq, wrap_succ_one in E; [|exact Hr].
      split; [intros; contradiction|]. intros _.
      destruct H as [Hl _]. do 4 eexists. exact Hl.
    + apply Z.eqb_neq in E. destruct H as (_ & Hl & _).
      split; [intros; exact Hl|].
      intros E0. exfalso. apply E. now apply wrap_succ_one.
  - destruct (release_effect st) as (st1 & Hrun & _ & _ & _ & _ & _ & Hl).
    exists st1. split; [exact Hrun|].
    destruct (wrap_int64 (count_of st + -1) =? 0) eqn:E.
    + apply Z.eqb_eq, wrap_pred_zero in E; [|exact Hr].
      split; [intros; contradiction|]. intros _. exact Hl.
    + apply Z.eqb_neq in E.
      split; [intros; exact Hl|].
      intros E1. exfalso. apply E. now apply wrap_pred_zero.
  - destruct (run_count ops st Hb) as (bs & st' & Hrun & _ & Hc).
    eauto.
Qed.

(** An acquire and two releases. *)
Lemma C3_count_and_side_effects_witness :
  (exists b st1,
     registerGlobalDummySyscallEvent exampleState = Ok b st1 /\
     (count_of exampleState <> 0 -> log_of st1 = log_of exampleState) /\
     (count_of exampleState = 0 ->
      exists name group filter a,
        log_of st1 =
          log_of exampleState ++ [RegisterTracepoint name fn_handleDummySysEnter
                                    group filter a])) /\
  (exists st1,
     run_unregisterFn releaseGlobalDummy exampleState = Ok tt st1 /\
     (count_of exampleState <> 1 -> log_of st1 = log_of exampleState) /\
     (count_of exampleState = 1 ->
      log_of st1 =
        log_of exampleState
          ++ [UnregisterEvent (dummySyscallEventID (sensor exampleState))])) /\
  (exists bs st',
     run [Acquire; Release; Release] exampleState = Ok bs st' /\
     count_of st' =
       count_of exampleState + Z.of_nat (successes bs)
         - Z.of_nat (releases [Acquire; Release; Release])).
Proof.
  apply (C3_count_and_side_effects exampleState [Acquire; Release; Release]).
  reflexivity.
Defined.

(** C3 as stated fails on its first half: one acquire followed by two
    releases leaves the count at -1. *)
Lemma C3_counterexample :
  exists bs st',
    run [Acquire; Release; Release] exampleState = Ok bs st' /\
    count_of st' = -1 /\
    count_of st' < 0.
Proof.
  do 2 eexists. split; [reflexivity|]. split; reflexivity.
Qed.

(* ================================================================= *)
(** ** Symbolic execution of the registration calls *)

(** The registration functions are straight-line code over a handful of
    tests.  [crack] unfolds a call on a state given field by field and
    splits on each test in turn, leaving one goal per path. *)
Ltac break_all st :=
  destruct st as [[[?tps ?ans ?log] ?cnt ?eid ?grp ?syms] [?once ?enter ?exit]
                   [?egid ?sinks ?status] [[?major ?minor] ?patch]].

Ltac exec := cbv [bind ret gets modify glog_Fatal
       sensor globals sub kernelVersion monitor dummySyscallEventCount
       dummySyscallEventID ContainerCache_EventGroupID kernelSymbols
       tracepoints answers calls eventGroupID eventSinks status
       syscallOnce syscallEnterName syscallExitName
       set_calls set_dummySyscallEventCount set_dummySyscallEventID
       set_globals set_sub count_of log_of next_answer
       Monitor_DoesTracepointExist Monitor_RegisterTracepoint
       Monitor_RegisterKprobe Monitor_RegisterEventGroup
       Monitor_UnregisterEvent atomic_AddInt64_dummySyscallEventCount
       logStatus sys_KernelVersion IsKernelSymbolAvailable
       set_syscallEnterName set_syscallExitName initSyscallNames
       syscallOnce_Do registerGlobalDummySyscallEvent run_unregisterFn
       set_eventGroupID set_eventSinks createEventGroup registerKprobe
       registerTracepoint set_unregister registerLocalDummySyscallEvent
       RegisterSyscallEnterEventFilter RegisterSyscallExitEventFilter
       forEach register registerAll majorOf namesOf
       fst snd negb].
Ltac exec_in H := cbv [bind ret gets modify glog_Fatal
       sensor globals sub kernelVersion monitor dummySyscallEventCount
       dummySyscallEventID ContainerCache_EventGroupID kernelSymbols
       tracepoints answers calls eventGroupID eventSinks status
       syscallOnce syscallEnterName syscallExitName
       set_calls set_dummySyscallEventCount set_dummySyscallEventID
       set_globals set_sub count_of log_of next_answer
       Monitor_DoesTracepointExist Monitor_RegisterTracepoint
       Monitor_RegisterKprobe Monitor_RegisterEventGroup
       Monitor_UnregisterEvent atomic_AddInt64_dummySyscallEventCount
       logStatus sys_KernelVersion IsKernelSymbolAvailable
       set_syscallEnterName set_syscallExitName initSyscallNames
       syscallOnce_Do registerGlobalDummySyscallEvent run_unregisterFn
       set_eventGroupID set_eventSinks createEventGroup registerKprobe
       registerTracepoint set_unregister registerLocalDummySyscallEvent
       RegisterSyscallEnterEventFilter RegisterSyscallExitEventFilter
       forEach register registerAll majorOf namesOf
       fst snd negb] in H.

Ltac crack H :=
  repeat (exec_in H;
          match type of H with
          | context [match ?x with _ => _ end] =>
              lazymatch x with
              | context [match _ with _ => _ end] => fail
              | _ => first [ is_var x; destruct x
                           | let E := fresh "E" in destruct x eqn:E ]
              end
          end);
  exec_in H.

Ltac conclude H :=
  crack H; try discriminate;
  inversion H; subst; clear H; exec.

(* ================================================================= *)
(** ** Failed registrations *)

(** C4.  Take a call of [RegisterSyscallEnterEventFilter] that returns
    without having registered its kprobe, because the dummy probe could not
    be acquired or because the engine refused the kprobe.  The reference
    count is what it was before the call, the subscription has no new
    handle, and on kernels with major version 3 or more every dummy
    registration the call made has been unregistered again.  An acquire
    that reports failure has put the count back and has left no dummy
    probe registered; and when the engine refuses the dummy tracepoint
    on the 0-to-1 transition, the acquire reports failure with the count
    back at 0. *)
Theorem C4_failure_leaves_no_dependency :
  forall filter st st',
    in_int64 (count_of st) ->
    RegisterSyscallEnterEventFilter filter st = Ok tt st' ->
    countCalls isKprobeRegistered (log_of st')
      = countCalls isKprobeRegistered (log_of st) ->
    count_of st' = count_of st /\
    eventSinks (sub st') = eventSinks (sub st) /\
    (3 <= majorOf st ->
     (countCalls isDummyRegistered (log_of st')
        + countCalls isUnregisterEvent (log_of st)
      = countCalls isDummyRegistered (log_of st)
        + countCalls isUnregisterEvent (log_of st'))%nat) /\
    (forall st1,
       registerGlobalDummySyscallEvent st = Ok false st1 ->
       count_of st1 = count_of st /\
       countCalls isDummyRegistered (log_of st1)
         = countCalls isDummyRegistered (log_of st)) /\
    (forall err,
       count_of st = 0 ->
       next_answer st = Refused err ->
       exists st1,
         registerGlobalDummySyscallEvent st = Ok false st1 /\
         count_of st1 = 0).
Proof.
  intros filter st st' Hr H Hf.
  assert (Hrej : forall err,
       count_of st = 0 ->
       next_answer st = Refused err ->
       exists st1,
         registerGlobalDummySyscallEvent st = Ok false st1 /\
         count_of st1 = 0).
  { intros err Hc Ha.
    destruct (acquire_effect st) as (b & st1 & Hrun & _ & _ & _ & Heff).
    rewrite Hc, Ha in Heff. cbn in Heff.
    destruct Heff as (_ & -> & Hc1 & _). eauto. }
  assert (Hacq : forall st1,
       registerGlobalDummySyscallEvent st = Ok false st1 ->
       count_of st1 = count_of st /\
       countCalls isDummyRegistered (log_of st1)
         = countCalls isDummyRegistered (log_of st)).
  { intros st1 H1.
    destruct (acquire_effect st) as (b & st2 & Hrun & _ & _ & _ & Heff).
    rewrite H1 in Hrun. injection Hrun as <- <-.
    destruct (wrap_int64 (count_of st + 1) =? 1) eqn:E.
    - apply Z.eqb_eq, wrap_succ_one in E; [|exact Hr].
      destruct Heff as [Hl Ha].
      destruct (next_answer st) as [id|err].
      + destruct Ha as [Hb _]. discriminate.
      + destruct Ha as (_ & -> & _). split; [now rewrite E|].
        rewrite Hl, countCalls_snoc. cbn. lia.
    - destruct Heff as [Hb _]. discriminate. }
  split; [|split; [|split; [|split; [exact Hacq|exact Hrej]]]];
    clear Hacq Hrej.
  all: break_all st; change (in_int64 cnt) in Hr; exec_in Hf.
  all: conclude H; exec_in Hf.
  all: rewrite ?countCalls_snoc in *;
       cbn [isKprobeRegistered isDummyRegistered isUnregisterEvent] in *.
  all: try (exfalso; lia).
  all: try reflexivity.
  all: try (apply wrap_succ_pred; exact Hr).
  all: intros Hmajor.
  all: repeat match goal with
       | H : (_ =? _) = true |- _ => apply Z.eqb_eq in H
       | H : (_ =? _) = false |- _ => apply Z.eqb_neq in H
       | H : (_ <? _) = true |- _ => apply Z.ltb_lt in H
       | H : (_ <? _) = false |- _ => apply Z.ltb_ge in H
       end.
  all: try lia.
  all: pose proof (wrap_succ_pred cnt Hr) as P1;
       pose proof (wrap_succ_one cnt Hr) as P2.
  all: try (exfalso; set (w := wrap_int64 (cnt + 1)) in *;
            set (v := wrap_int64 (w + -1)) in *; lia).
Qed.

(** The engine accepts the dummy tracepoint and refuses the kprobe. *)
Lemma C4_failure_leaves_no_dependency_witness :
  count_of (final (RegisterSyscallEnterEventFilter "id == 59" kprobeRefused)
              kprobeRefused)
    = count_of kprobeRefused /\
  eventSinks (sub (final (RegisterSyscallEnterEventFilter "id == 59" kprobeRefused)
                     kprobeRefused))
    = eventSinks (sub kprobeRefused) /\
  (3 <= majorOf kprobeRefused ->
   (countCalls isDummyRegistered
      (log_of (final (RegisterSyscallEnterEventFilter "id == 59" kprobeRefused)
                 kprobeRefused))
      + countCalls isUnregisterEvent (log_of kprobeRefused)
    = countCalls isDummyRegistered (log_of kprobeRefused)
      + countCalls isUnregisterEvent
          (log_of (final (RegisterSyscallEnterEventFilter "id == 59" kprobeRefused)
                     kprobeRefused)))%nat) /\
  (forall st1,
     registerGlobalDummySyscallEvent kprobeRefused = Ok false st1 ->
     count_of st1 = count_of kprobeRefused /\
     countCalls isDummyRegistered (log_of st1)
       = countCalls isDummyRegistered (log_of kprobeRefused)) /\
  (forall err,
     count_of kprobeRefused = 0 ->
     next_answer kprobeRefused = Refused err ->
     exists st1,
       registerGlobalDummySyscallEvent kprobeRefused = Ok false st1 /\
       count_of st1 = 0).
Proof.
  apply (C4_failure_leaves_no_dependency "id == 59" kprobeRefused
           (final (RegisterSyscallEnterEventFilter "id == 59" kprobeRefused)
              kprobeRefused)).
  - unfold in_int64, int64_min, int64_max. cbn. lia.
  - vm_compute. reflexivity.
  - vm_compute. reflexivity.
Defined.

(** What that call leaves in the engine's log: the dummy probe is
    registered, the kprobe is refused, the dummy probe is unregistered. *)
Example kprobeRefused_log :
  log_of (final (RegisterSyscallEnterEventFilter "id == 59" kprobeRefused)
            kprobeRefused)
  = [DoesTracepointExist "raw_syscalls/sys_enter" true;
     RegisterTracepoint "raw_syscalls/sys_enter" fn_handleDummySysEnter 1
       "id == 0x7fffffff" (Registered 1);
     RegisterKprobe "syscall_trace_enter_phase1" false
       syscallEnterKprobeFetchargs fn_handleSyscallTraceEnter 0 "id == 59"
       (Refused "refused");
     UnregisterEvent 1].
Proof. vm_compute. reflexivity. Qed.

(* ================================================================= *)
(** ** Resolution of the syscall tracepoint names *)

Lemma register_effect r st st' :
  register r st = Ok tt st' ->
  tracepoints (monitor (sensor st')) = tracepoints (monitor (sensor st)) /\
  (syscallOnce (globals st) = true ->
   globals st' = globals st /\
   countCalls isTracepointQuery (log_of st')
     = countCalls isTracepointQuery (log_of st) /\
   countCalls isResolution (log_of st')
     = countCalls isResolution (log_of st)) /\
  (syscallOnce (globals st) = false ->
   syscallOnce (globals st') = true /\
   resolvedNames (tracepoints (monitor (sensor st))) = Some (namesOf st') /\
   countCalls isResolution (log_of st')
     = S (countCalls isResolution (log_of st))).
Proof.
  intros H. break_all st. destruct r as [filter|filter].
  all: conclude H.
  all: split; [reflexivity|].
  all: split; intros Honce; try discriminate Honce.
  all: unfold resolvedNames;
       repeat match goal with
       | E : ?t ?s = _ |- context [?t ?s] => rewrite E
       end.
  all: rewrite ?countCalls_snoc.
  all: cbn [isTracepointQuery isResolution String.eqb Ascii.eqb Bool.eqb].
  all: repeat split; try reflexivity; try lia.
Qed.

Lemma registerAll_cons r rs st :
  registerAll (r :: rs) st =
  match register r st with
  | Ok _ st1 => registerAll rs st1
  | Fatal msg => Fatal msg
  end.
Proof. reflexivity. Qed.

Lemma registerAll_resolved rs : forall st st',
  syscallOnce (globals st) = true ->
  registerAll rs st = Ok tt st' ->
  globals st' = globals st /\
  countCalls isTracepointQuery (log_of st')
    = countCalls isTracepointQuery (log_of st) /\
  countCalls isResolution (log_of st')
    = countCalls isResolution (log_of st).
Proof.
  induction rs as [|r rs IH]; intros st st' Honce H.
  - injection H as <-. repeat split; reflexivity.
  - rewrite registerAll_cons in H.
    destruct (register r st) as [[] st1|msg] eqn:E; [|discriminate].
    destruct (register_effect _ _ _ E) as (_ & H1 & _).
    destruct (H1 Honce) as (Hg & Hq & Hr).
    destruct (IH st1 st') as (Hg' & Hq' & Hr'); [now rewrite Hg|exact H|].
    repeat split; congruence.
Qed.

Lemma initSyscallNames_resolves st :
  match resolvedNames (tracepoints (monitor (sensor st))) with
  | Some names =>
      exists st', initSyscallNames st = Ok tt st' /\ namesOf st' = names
  | None =>
      initSyscallNames st = Fatal "No syscall sys_enter tracepoint exists!"
  end.
Proof.
  break_all st. unfold resolvedNames. exec.
  destruct (tps "raw_syscalls/sys_enter"); [eexists; split; reflexivity|].
  destruct (tps "syscalls/sys_enter"); [eexists; split; reflexivity|].
  reflexivity.
Qed.

Lemma register_aborts r st :
  syscallOnce (globals st) = false ->
  resolvedNames (tracepoints (monitor (sensor st))) = None ->
  register r st = Fatal "No syscall sys_enter tracepoint exists!".
Proof.
  intros Honce Hnone. break_all st. exec_in Honce. subst.
  unfold resolvedNames in Hnone. exec_in Hnone.
  destruct (tps "raw_syscalls/sys_enter") eqn:E1; [discriminate|].
  destruct (tps "syscalls/sys_enter") eqn:E2; [discriminate|].
  destruct r; exec; rewrite E1; exec; rewrite E2; reflexivity.
Qed.

(** C5.  [initSyscallNames] settles on the raw_syscalls pair of names when
    raw_syscalls/sys_enter exists, else on the syscalls pair when
    syscalls/sys_enter exists, and ends the process otherwise.  In a
    process whose names are not resolved yet, any non-empty sequence of
    syscall registration calls that returns has run the resolution exactly
    once and holds the resolved pair; once the names are resolved, further
    registration calls leave the package variables as they are and never
    ask the engine about tracepoints again, and the exit registration
    passes the resolved exit name to the engine.  With no sys_enter
    tracepoint the first registration call ends the process. *)
Theorem C5_syscall_names_resolved_once :
  (forall st,
     match resolvedNames (tracepoints (monitor (sensor st))) with
     | Some names =>
         exists st', initSyscallNames st = Ok tt st' /\ namesOf st' = names
     | None =>
         initSyscallNames st = Fatal "No syscall sys_enter tracepoint exists!"
     end) /\
  (forall r rs st st',
     syscallOnce (globals st) = false ->
     registerAll (r :: rs) st = Ok tt st' ->
     syscallOnce (globals st') = true /\
     resolvedNames (tracepoints (monitor (sensor st))) = Some (namesOf st') /\
     countCalls isResolution (log_of st')
       = S (countCalls isResolution (log_of st))) /\
  (forall rs st st',
     syscallOnce (globals st) = true ->
     registerAll rs st = Ok tt st' ->
     globals st' = globals st /\
     countCalls isTracepointQuery (log_of st')
       = countCalls isTracepointQuery (log_of st)) /\
  (forall filter st st',
     syscallOnce (globals st) = true ->
     RegisterSyscallExitEventFilter filter st = Ok tt st' ->
     exists group a,
       log_of st' =
         log_of st ++ [RegisterTracepoint (syscallExitName (globals st))
                         fn_handleSysExit group filter a]) /\
  (forall r rs st,
     syscallOnce (globals st) = false ->
     resolvedNames (tracepoints (monitor (sensor st))) = None ->
     registerAll (r :: rs) st
       = Fatal "No syscall sys_enter tracepoint exists!").
Proof.
  split; [exact initSyscallNames_resolves|].
  split; [|split; [|split]].
  - intros r rs st st' Honce H.
    rewrite registerAll_cons in H.
    destruct (register r st) as [[] st1|msg] eqn:E; [|discriminate].
    destruct (register_effect _ _ _ E) as (_ & _ & H1).
    destruct (H1 Honce) as (Ho & Hn & Hq).
    destruct (registerAll_resolved rs st1 st' Ho H) as (Hg & _ & Hr).
    unfold namesOf in *. rewrite Hg. split; [exact Ho|]. split; [exact Hn|].
    congruence.
  - intros rs st st' Honce H.
    destruct (registerAll_resolved rs st st' Honce H) as (Hg & Hq & _).
    split; assumption.
  - intros filter st st' Honce H. break_all st. exec_in Honce. subst.
    conclude H; do 2 eexists; reflexivity.
  - intros r rs st Honce Hnone. rewrite registerAll_cons.
    now rewrite register_aborts.
Qed.


(** C6.  A call of [RegisterSyscallEnterEventFilter] whose setup the
    engine did not refuse sends one kprobe registration to the engine, and
    that registration names syscall_trace_enter_phase1 when the sensor
    reports that symbol available and syscall_trace_enter otherwise, is
    not a return probe, is handled by [handleSyscallTraceEnter], carries
    the caller's filter, and carries the same fetch-arg string in both
    cases, character for character the one with id at +120(%di) and
    arg0..arg5 at +112, +104, +96, +56, +72 and +64.  No call sends a
    kprobe registration of another shape, and a call whose setup was
    refused sends none. *)
Theorem C6_kprobe_symbol_and_fetchargs :
  forall filter st st',
    RegisterSyscallEnterEventFilter filter st = Ok tt st' ->
    exists new,
      log_of st' = log_of st ++ new /\
      Forall (syscallEnterKprobeOk (kernelSymbols (sensor st)) filter) new /\
      countCalls isKprobeCall new
      = (if Nat.eqb (countCalls isRefusedSetup new) 0 then 1 else 0)%nat /\
      (countCalls isRefusedSetup new = 0%nat ->
       exists group a,
         RegisterKprobe (kprobeSymbolFor (kernelSymbols (sensor st))) false
           "id=+120(%di):s64 arg0=+112(%di):u64 arg1=+104(%di):u64 arg2=+96(%di):u64 arg3=+56(%di):u64 arg4=+72(%di):u64 arg5=+64(%di):u64"
           fn_handleSyscallTraceEnter group filter a ∈ new).
Proof.
  intros filter st st' H. break_all st.
  conclude H.
  all: rewrite <- ?app_assoc; cbn [app].
  all: eexists; split; [try reflexivity; symmetry; apply app_nil_r|].
  all: cbv [syscallNewEnterKprobeAddress syscallOldEnterKprobeAddress] in *.
  all: split;
       [repeat constructor;
        unfold kprobeSymbolFor;
        repeat match goal with
        | E : ?t ?s = _ |- context [?t ?s] => rewrite E
        end; reflexivity|].
  all: split; [reflexivity|].
  all: intros Hsetup; try discriminate Hsetup.
  all: unfold kprobeSymbolFor;
       repeat match goal with
       | E : ?t ?s = _ |- context [?t ?s] => rewrite E
       end.
  all: do 2 eexists.
  all: repeat first [ apply list_elem_of_here | apply list_elem_of_further ].
Qed.

(** Scenario D: kernel 4.0.0 without syscall_trace_enter_phase1. *)
Lemma C6_kprobe_symbol_and_fetchargs_witness :
  exists new,
    log_of (final (RegisterSyscallEnterEventFilter "id == 59" legacySymbol)
              legacySymbol)
      = log_of legacySymbol ++ new /\
    Forall (syscallEnterKprobeOk (kernelSymbols (sensor legacySymbol)) "id == 59")
      new /\
    countCalls isKprobeCall new
    = (if Nat.eqb (countCalls isRefusedSetup new) 0 then 1 else 0)%nat /\
    (countCalls isRefusedSetup new = 0%nat ->
     exists group a,
       RegisterKprobe (kprobeSymbolFor (kernelSymbols (sensor legacySymbol)))
         false
         "id=+120(%di):s64 arg0=+112(%di):u64 arg1=+104(%di):u64 arg2=+96(%di):u64 arg3=+56(%di):u64 arg4=+72(%di):u64 arg5=+64(%di):u64"
         fn_handleSyscallTraceEnter group "id == 59" a ∈ new).
Proof.
  apply (C6_kprobe_symbol_and_fetchargs "id == 59" legacySymbol
           (final (RegisterSyscallEnterEventFilter "id == 59" legacySymbol)
              legacySymbol)).
  vm_compute. reflexivity.
Defined.

(** The log of scenario D in full: the legacy symbol, the same fetch-arg
    string. *)
Example legacySymbol_log :
  log_of (final (RegisterSyscallEnterEventFilter "id == 59" legacySymbol)
            legacySymbol)
  = [DoesTracepointExist "raw_syscalls/sys_enter" true;
     RegisterTracepoint "raw_syscalls/sys_enter" fn_handleDummySysEnter 1
       "id == 0x7fffffff" (Registered 1);
     RegisterKprobe "syscall_trace_enter" false
       "id=+120(%di):s64 arg0=+112(%di):u64 arg1=+104(%di):u64 arg2=+96(%di):u64 arg3=+56(%di):u64 arg4=+72(%di):u64 arg5=+64(%di):u64"
       fn_handleSyscallTraceEnter 0 "id == 59" (Registered 2)].
Proof. vm_compute. reflexivity. Qed.

(** An enter registration followed by an exit registration on a fresh
    process; two more calls after that; an exit registration with the
    names resolved; a kernel with no tracepoints. *)
Lemma C5_syscall_names_resolved_once_witness :
  (syscallOnce
     (globals (final (registerAll [SyscallEnter "id == 59"; SyscallExit "ret < 0"]
                        exampleState) exampleState)) = true /\
   resolvedNames (tracepoints (monitor (sensor exampleState)))
     = Some (namesOf (final (registerAll [SyscallEnter "id == 59";
                                          SyscallExit "ret < 0"]
                               exampleState) exampleState)) /\
   countCalls isResolution
     (log_of (final (registerAll [SyscallEnter "id == 59"; SyscallExit "ret < 0"]
                       exampleState) exampleState))
     = S (countCalls isResolution (log_of exampleState))) /\
  (globals (final (registerAll [SyscallExit "ret < 0"; SyscallEnter "id == 59"]
                     (final (register (SyscallExit "") exampleState) exampleState))
              exampleState)
     = globals (final (register (SyscallExit "") exampleState) exampleState) /\
   countCalls isTracepointQuery
     (log_of (final (registerAll [SyscallExit "ret < 0"; SyscallEnter "id == 59"]
                       (final (register (SyscallExit "") exampleState) exampleState))
                exampleState))
     = countCalls isTracepointQuery
         (log_of (final (register (SyscallExit "") exampleState) exampleState))) /\
  (exists group a,
     log_of (final (RegisterSyscallExitEventFilter "ret < 0"
                      (final (register (SyscallExit "") exampleState) exampleState))
               exampleState)
     = log_of (final (register (SyscallExit "") exampleState) exampleState)
         ++ [RegisterTracepoint
               (syscallExitName
                  (globals (final (register (SyscallExit "") exampleState)
                              exampleState)))
               fn_handleSysExit group "ret < 0" a]) /\
  registerAll [SyscallEnter "id == 59"] noTracepoints
    = Fatal "No syscall sys_enter tracepoint exists!".
Proof.
  pose proof C5_syscall_names_resolved_once as (_ & H2 & H3 & H4 & H5).
  split; [|split; [|split]].
  - apply (H2 (SyscallEnter "id == 59") [SyscallExit "ret < 0"] exampleState);
      vm_compute; reflexivity.
  - apply (H3 [SyscallExit "ret < 0"; SyscallEnter "id == 59"]
             (final (register (SyscallExit "") exampleState) exampleState));
      vm_compute; reflexivity.
  - apply (H4 "ret < 0"
             (final (register (SyscallExit "") exampleState) exampleState));
      vm_compute; reflexivity.
  - apply (H5 (SyscallEnter "id == 59") [] noTracepoints);
      vm_compute; reflexivity.
Defined.

(* ================================================================= *)
(** ** The local dummy probe (kernel major version below 3) *)

(** One call on a fresh subscription, which has no event group yet: the
    engine is asked for a group once and, unless it refuses, for the dummy
    tracepoint once, in the group just created; nothing is unregistered,
    the reference count is not touched, and the only handle the
    subscription may gain is the kprobe's, without a hook. *)
Lemma local_register_effect filter st st' :
  majorOf st < 3 ->
  eventGroupID (sub st) = 0 ->
  RegisterSyscallEnterEventFilter filter st = Ok tt st' ->
  count_of st' = count_of st /\
  kernelVersion st' = kernelVersion st /\
  exists new,
    log_of st' = log_of st ++ new /\
    unregisteredIDs new = [] /\
    localSetup (eventGroupID (sub st')) new /\
    ((eventSinks (sub st') = eventSinks (sub st) /\ handleEventIDs new = []) \/
     (exists id,
        eventSinks (sub st') = <[id := mkEventSink id None]> (eventSinks (sub st)) /\
        handleEventIDs new = [id])).
Proof.
  intros Hmajor Hfresh H. break_all st. exec_in Hmajor. exec_in Hfresh. subst egid.
  assert (Hlt : (major <? 3) = true) by (apply Z.ltb_lt; exact Hmajor).
  conclude H; try congruence.
  all: split; [reflexivity|].
  all: split; [reflexivity|].
  all: rewrite <- ?app_assoc; cbn [app].
  all: eexists; split; [try reflexivity; symmetry; apply app_nil_r|].
  all: split; [reflexivity|].
  all: split; [unfold localSetup; split; [reflexivity|]; split;
               [repeat constructor|]; split; [reflexivity|];
               repeat constructor; cbn; tauto|].
  all: rewrite ?insert_insert_eq.
  all: first [ left; split; reflexivity
             | right; eexists; split; reflexivity ].
Qed.

Lemma bind_eq {A B} (m : M A) (k : A -> M B) st :
  bind m k st =
  match m st with
  | Ok a st' => k a st'
  | Fatal msg => Fatal msg
  end.
Proof. reflexivity. Qed.

Lemma forEach_close l : forall st,
  Forall (fun kv : Z * eventSink => unregister (snd kv) = None) l ->
  exists st',
    forEach l (fun kv => closeEventSink (snd kv)) st = Ok tt st' /\
    log_of st' = log_of st ++ map (fun kv => UnregisterEvent (eventID (snd kv))) l /\
    count_of st' = count_of st /\
    sub st' = sub st /\
    kernelVersion st' = kernelVersion st.
Proof.
  induction l as [|kv l IH]; intros st Hl.
  - exists st. cbn. rewrite app_nil_r. tauto.
  - inversion Hl as [|? ? Hkv Hl']; subst.
    cbn [forEach]. unfold closeEventSink at 1. rewrite !bind_eq.
    cbn [Monitor_UnregisterEvent modify]. rewrite Hkv. cbn [ret].
    destruct (IH (set_calls (fun l0 => l0 ++ [UnregisterEvent (eventID (snd kv))]) st) Hl')
      as (st' & Hrun & Hlog & Hc & Hs & Hv).
    exists st'. split; [exact Hrun|].
    rewrite Hlog, Hc, Hs, Hv. destruct st as [[[? ? ?] ? ? ? ?] ? ? ?]. cbn.
    rewrite <- app_assoc. tauto.
Qed.

Lemma close_effect st :
  (forall id es, eventSinks (sub st) !! id = Some es -> unregister es = None) ->
  exists st',
    Subscription_Close st = Ok tt st' /\
    log_of st' =
      log_of st ++ map (fun kv => UnregisterEvent (eventID (snd kv)))
                     (map_to_list (eventSinks (sub st))) /\
    count_of st' = count_of st /\
    eventSinks (sub st') = ∅ /\
    eventGroupID (sub st') = eventGroupID (sub st).
Proof.
  intros Hh. unfold Subscription_Close. rewrite bind_eq. cbn [gets].
  destruct (forEach_close (map_to_list (eventSinks (sub st))) st) as
    (st1 & Hrun & Hlog & Hc & Hs & Hv).
  { apply Forall_forall. intros [id es] Hin. cbn.
    apply (Hh id). now apply elem_of_map_to_list. }
  rewrite bind_eq, Hrun. eexists. split; [reflexivity|].
  unfold log_of, count_of in *. cbn. rewrite Hlog, Hc, Hs. tauto.
Qed.

Lemma onSubscription_eq {A} (s : Subscription) (m : M A) st :
  onSubscription s m st =
  match m (set_sub s st) with
  | Ok a st1 => Ok (a, sub st1) (set_sub (sub st) st1)
  | Fatal msg => Fatal msg
  end.
Proof.
  unfold onSubscription. rewrite bind_eq. cbn [gets]. rewrite bind_eq.
  cbn [modify]. rewrite bind_eq. destruct (m (set_sub s st)); reflexivity.
Qed.

Lemma handleEventIDs_eventIDs l id : id ∈ handleEventIDs l -> id ∈ eventIDs l.
Proof.
  unfold handleEventIDs, eventIDs. rewrite !list_elem_of_omap.
  intros (c & Hin & Hc). exists c. split; [exact Hin|].
  destruct c as [| ? [] ? ? []| ? ? ? ? ? ? []| |]; try discriminate; exact Hc.
Qed.

Lemma dummy_handle_disjoint l : forall id,
  NoDup (eventIDs l) ->
  id ∈ dummyEventIDs l -> id ∈ handleEventIDs l -> False.
Proof.
  induction l as [|c l IH]; intros id Hnd Hd Hh.
  - cbn in Hd. now apply elem_of_nil in Hd.
  - assert (Hcases :
      (dummyEventIDs (c :: l) = dummyEventIDs l /\
       handleEventIDs (c :: l) = handleEventIDs l /\
       eventIDs (c :: l) = eventIDs l) \/
      (exists i, dummyEventIDs (c :: l) = i :: dummyEventIDs l /\
                 handleEventIDs (c :: l) = handleEventIDs l /\
                 eventIDs (c :: l) = i :: eventIDs l) \/
      (exists i, dummyEventIDs (c :: l) = dummyEventIDs l /\
                 handleEventIDs (c :: l) = i :: handleEventIDs l /\
                 eventIDs (c :: l) = i :: eventIDs l)).
    { destruct c as [| ? [] ? ? [i|]| ? ? ? ? ? ? [i|]| |]; cbn; eauto 10. }
    destruct Hcases as [(E1 & E2 & E3)|[(i & E1 & E2 & E3)|(i & E1 & E2 & E3)]];
      rewrite E1 in Hd; rewrite E2 in Hh; rewrite E3 in Hnd.
    + eauto.
    + apply NoDup_cons in Hnd as [Hni Hnd].
      apply elem_of_cons in Hd as [->|Hd]; [|eauto].
      apply Hni. now apply handleEventIDs_eventIDs.
    + apply NoDup_cons in Hnd as [Hni Hnd].
      apply elem_of_cons in Hh as [->|Hh]; [|eauto].
      apply Hni. unfold dummyEventIDs, eventIDs in *.
      rewrite list_elem_of_omap in *. destruct Hd as (c' & Hin & Hc').
      exists c'. split; [exact Hin|].
      destruct c' as [| ? [] ? ? []| ? ? ? ? ? ? []| |]; try discriminate; exact Hc'.
Qed.

Lemma unregisteredIDs_app l1 l2 :
  unregisteredIDs (l1 ++ l2) = unregisteredIDs l1 ++ unregisteredIDs l2.
Proof. unfold unregisteredIDs. apply omap_app. Qed.

(** C9.  On a kernel with major version below 3, let two fresh
    subscriptions each register a syscall-enter filter and let the first
    one be torn down.  The engine's log of the scenario splits into what
    the first registration sent, what the second sent, and what the
    teardown sent.  Each registration asks the engine for one event group
    and, unless that is refused, registers the dummy tracepoint once, in
    the group that was created for its own subscription, which is the group
    the subscription ends up with.  Neither registration unregisters
    anything.  The teardown sends one [UnregisterEvent] for each handle the
    first registration obtained, and nothing else.  The shared reference
    count is not touched, so no release hook ran; the handles the second
    subscription still owns are those of its own registration and carry no
    hook.  Hence, the engine handing out distinct event ids, no
    [UnregisterEvent] call names the event id of a dummy probe. *)
Theorem C9_local_dummy_never_unregistered :
  forall filterA filterB st subs st',
    majorOf st < 3 ->
    subscribeTwiceUnsubscribeOnce filterA filterB st = Ok subs st' ->
    exists newA newB newC,
      log_of st' = log_of st ++ newA ++ newB ++ newC /\
      count_of st' = count_of st /\
      localSetup (eventGroupID (fst subs)) newA /\
      localSetup (eventGroupID (snd subs)) newB /\
      unregisteredIDs (newA ++ newB) = [] /\
      newC = map UnregisterEvent (handleEventIDs newA) /\
      eventSinks (fst subs) = ∅ /\
      (forall id es,
         eventSinks (snd subs) !! id = Some es ->
         unregister es = None /\ id ∈ handleEventIDs newB) /\
      (NoDup (eventIDs (newA ++ newB ++ newC)) ->
       forall id,
         id ∈ dummyEventIDs (newA ++ newB ++ newC) ->
         id ∉ unregisteredIDs (newA ++ newB ++ newC)).
Proof.
  intros filterA filterB st subs st' Hmajor H.
  unfold subscribeTwiceUnsubscribeOnce in H.
  rewrite bind_eq, onSubscription_eq in H.
  destruct (RegisterSyscallEnterEventFilter filterA (set_sub newSubscription st))
    as [[] sA|] eqn:EA; [|discriminate].
  rewrite bind_eq, onSubscription_eq in H. cbn [snd] in H.
  destruct (RegisterSyscallEnterEventFilter filterB
              (set_sub newSubscription (set_sub (sub st) sA)))
    as [[] sB|] eqn:EB; [|discriminate].
  rewrite bind_eq, onSubscription_eq in H. cbn [snd] in H.
  apply local_register_effect in EA; [|exact Hmajor|reflexivity].
  destruct EA as (HcA & HvA & newA & HlA & HuA & HgA & HsA).
  apply local_register_effect in EB;
    [|unfold majorOf in *; cbn; cbn in HvA; now rewrite HvA|reflexivity].
  destruct EB as (HcB & HvB & newB & HlB & HuB & HgB & HsB).
  cbn in HsA, HsB, HlA, HlB, HcA, HcB.
  assert (HhA : forall id es,
            eventSinks (sub sA) !! id = Some es -> unregister es = None).
  { intros id es. destruct HsA as [[-> _]|(i & -> & _)].
    - now rewrite lookup_empty.
    - rewrite lookup_insert. case_decide; [|now rewrite lookup_empty].
      intros [= <-]. reflexivity. }
  destruct (close_effect (set_sub (sub sA) (set_sub (sub st) sB)))
    as (sC & HrunC & HlC & HcC & HsC & HgC); [exact HhA|].
  cbn [sub set_sub] in H. rewrite HrunC in H. cbn in H. injection H as <- <-.
  cbn in HlC, HcC, HgC. cbn [fst snd].
  exists newA, newB, (map UnregisterEvent (handleEventIDs newA)).
  assert (HnC : map (fun kv : Z * eventSink => UnregisterEvent (eventID (snd kv)))
                  (map_to_list (eventSinks (sub sA)))
                = map UnregisterEvent (handleEventIDs newA)).
  { destruct HsA as [[-> ->]|(i & -> & ->)].
    - now rewrite map_to_list_empty.
    - now rewrite insert_empty, map_to_list_singleton. }
  rewrite HnC in HlC.
  assert (HuC : unregisteredIDs (map UnregisterEvent (handleEventIDs newA))
                = handleEventIDs newA).
  { generalize (handleEventIDs newA). intros l.
    induction l as [|i l IH]; [reflexivity|]. cbn. fold (unregisteredIDs (map UnregisterEvent l)). now rewrite IH. }
  split; [|split; [|split; [|split; [|split; [|split; [|split; [|split]]]]]]].
  - unfold log_of in *. cbn. rewrite HlC. cbn. rewrite HlB. cbn.
    rewrite HlA. now rewrite <- !app_assoc.
  - unfold count_of in *. cbn. rewrite HcC. cbn. rewrite HcB. cbn. exact HcA.
  - rewrite HgC. exact HgA.
  - exact HgB.
  - rewrite unregisteredIDs_app, HuA, HuB. reflexivity.
  - reflexivity.
  - exact HsC.
  - intros id es. destruct HsB as [[-> _]|(i & -> & ->)].
    + now rewrite lookup_empty.
    + rewrite lookup_insert. case_decide; [|now rewrite lookup_empty].
      intros [= <-]. subst. split; [reflexivity|]. apply list_elem_of_here.
  - intros Hnd id Hd Hu.
    apply (dummy_handle_disjoint _ id Hnd Hd).
    rewrite !unregisteredIDs_app, HuA, HuB, HuC in Hu. cbn [app] in Hu.
    unfold handleEventIDs. rewrite !omap_app. apply elem_of_app. now left.
Qed.

(** Scenario C on the 2.6.32 kernel. *)
Lemma C9_local_dummy_never_unregistered_witness :
  exists newA newB newC,
    log_of (final (subscribeTwiceUnsubscribeOnce "id == 59" "id == 1" oldKernel)
              oldKernel)
      = log_of oldKernel ++ newA ++ newB ++ newC /\
    count_of (final (subscribeTwiceUnsubscribeOnce "id == 59" "id == 1" oldKernel)
                oldKernel)
      = count_of oldKernel /\
    localSetup
      (eventGroupID
         (fst (result (subscribeTwiceUnsubscribeOnce "id == 59" "id == 1" oldKernel)
                 (newSubscription, newSubscription))))
      newA /\
    localSetup
      (eventGroupID
         (snd (result (subscribeTwiceUnsubscribeOnce "id == 59" "id == 1" oldKernel)
                 (newSubscription, newSubscription))))
      newB /\
    unregisteredIDs (newA ++ newB) = [] /\
    newC = map UnregisterEvent (handleEventIDs newA) /\
    eventSinks
      (fst (result (subscribeTwiceUnsubscribeOnce "id == 59" "id == 1" oldKernel)
              (newSubscription, newSubscription))) = ∅ /\
    (forall id es,
       eventSinks
         (snd (result (subscribeTwiceUnsubscribeOnce "id == 59" "id == 1" oldKernel)
                 (newSubscription, newSubscription))) !! id = Some es ->
       unregister es = None /\ id ∈ handleEventIDs newB) /\
    (NoDup (eventIDs (newA ++ newB ++ newC)) ->
     forall id,
       id ∈ dummyEventIDs (newA ++ newB ++ newC) ->
       id ∉ unregisteredIDs (newA ++ newB ++ newC)).
Proof.
  apply (C9_local_dummy_never_unregistered "id == 59" "id == 1" oldKernel
           (result (subscribeTwiceUnsubscribeOnce "id == 59" "id == 1" oldKernel)
              (newSubscription, newSubscription))
           (final (subscribeTwiceUnsubscribeOnce "id == 59" "id == 1" oldKernel)
              oldKernel)).
  - vm_compute. reflexivity.
  - vm_compute. reflexivity.
Defined.

(** The log of scenario C in full: each subscription gets a group and a
    dummy tracepoint in it; tearing the first one down unregisters its
    kprobe (event 3) and leaves its dummy tracepoint (event 2) alone. *)
Example oldKernel_log :
  log_of (final (subscribeTwiceUnsubscribeOnce "id == 59" "id == 1" oldKernel)
            oldKernel)
  = [DoesTracepointExist "raw_syscalls/sys_enter" true;
     RegisterEventGroup (Registered 1);
     RegisterTracepoint "raw_syscalls/sys_enter" fn_handleDummySysEnter 1
       "id == 0x7fffffff" (Registered 2);
     RegisterKprobe "syscall_trace_enter_phase1" false
       syscallEnterKprobeFetchargs fn_handleSyscallTraceEnter 1 "id == 59"
       (Registered 3);
     RegisterEventGroup (Registered 4);
     RegisterTracepoint "raw_syscalls/sys_enter" fn_handleDummySysEnter 4
       "id == 0x7fffffff" (Registered 5);
     RegisterKprobe "syscall_trace_enter_phase1" false
       syscallEnterKprobeFetchargs fn_handleSyscallTraceEnter 4 "id == 1"
       (Registered 6);
     UnregisterEvent 3].
Proof. vm_compute. reflexivity. Qed.

(* ================================================================= *)
(** ** Decoding of samples *)

Section DecodingProperties.

Variable TelemetryEventData : Type.
Variable zeroTelemetryEventData : TelemetryEventData.
Variable InitWithSample :
  TelemetryEventData -> Sample -> bool * TelemetryEventData.

Local Abbreviation handle := (call TelemetryEventData zeroTelemetryEventData InitWithSample).

Lemma missing_getters (sample : Sample) name :
  sample !! name = None ->
  GetSignedInt64 sample name = (0, true) /\
  GetUnsignedInt16 sample name = (0, true) /\
  GetUnsignedInt32 sample name = (0, true) /\
  GetUnsignedInt64 sample name = (0, true) /\
  GetString sample name = (""%string, true).
Proof.
  intros H. unfold GetSignedInt64, GetUnsignedInt16, GetUnsignedInt32,
    GetUnsignedInt64, GetString. rewrite H. tauto.
Qed.

(** C7.  For every handler of the two event sources and every sample:
    when [InitWithSample] reports success the handler dispatches exactly
    one event, under the event id it was called with, of the handler's
    own event type, carrying the envelope that [InitWithSample] left,
    and with every declared field that the sample lacks at the zero
    value of its declared type; when [InitWithSample] reports failure
    the handler dispatches nothing. *)
Theorem C7_decoding_all_or_nothing :
  forall h eventid sample,
    h <> fn_handleDummySysEnter ->
    if fst (InitWithSample zeroTelemetryEventData sample) then
      exists e,
        handle h eventid sample = [(eventid, e)] /\
        producedBy h e = true /\
        CommonTelemetryEventData e
          = snd (InitWithSample zeroTelemetryEventData sample) /\
        forall name t,
          declaredTypes h !! name = Some t ->
          sample !! name = None ->
          eventField e name = Some (zeroValue t)
    else handle h eventid sample = [].
Proof.
  intros h eventid sample Hh.
  destruct h; try contradiction; clear Hh.
  all: cbv [call handleSyscallTraceEnter handleSysExit
            handleSysEnterAccept handleSysExitAccept handleSysBind
            handleSysExitBind handleSysConnect handleSysExitConnect
            handleSysEnterListen handleSysExitListen handleSysEnterRecvfrom
            handleSysExitRecvfrom handleSysSendto handleSysExitSendto].
  all: destruct (InitWithSample zeroTelemetryEventData sample) as [[] d];
       cbn [fst snd]; [|reflexivity].
  all: eexists; split; [reflexivity|].
  all: split; [reflexivity|]. 
  all: split; [reflexivity|].
  all: intros name t Hdecl Hmiss.
  all: cbv [declaredTypes SyscallEnterEventTypes SyscallExitEventTypes
            NetworkAttemptEventTypes NetworkAttemptWithAddressEventTypes
            NetworkListenAttemptEventTypes NetworkResultEventTypes] in Hdecl.
  all: apply elem_of_list_to_map_2 in Hdecl.
  all: repeat (apply elem_of_cons in Hdecl as [Hdecl|Hdecl];
               [injection Hdecl as -> ->|]).
  all: try (now apply elem_of_nil in Hdecl).
  all: pose proof (missing_getters _ _ Hmiss) as (G1 & G2 & G3 & G4 & G5).
  all: cbn -[GetSignedInt64 GetUnsignedInt16 GetUnsignedInt32
             GetUnsignedInt64 GetString Z.eqb].
  all: rewrite ?G1, ?G2, ?G3, ?G4, ?G5; try reflexivity.
  all: unfold NetworkAddress_initWithSample;
       cbn -[GetSignedInt64 GetUnsignedInt16 GetUnsignedInt32
             GetUnsignedInt64 GetString Z.eqb].
  all: repeat match goal with
       | |- context [if ?b then _ else _] => destruct b
       end.
  all: cbn -[GetSignedInt64 GetUnsignedInt16 GetUnsignedInt32
             GetUnsignedInt64 GetString Z.eqb].
  all: rewrite ?G1, ?G2, ?G3, ?G4, ?G5; try reflexivity.
Qed.

Lemma address_of_dispatched h eventid sample id e addr :
  (id, e) ∈ handle h eventid sample ->
  addressOf e = Some addr ->
  addr = NetworkAddress_initWithSample zeroNetworkAddress sample.
Proof.
  intros Hin Ha.
  destruct h.
  all: cbv [call handleDummySysEnter
            handleSyscallTraceEnter handleSysExit
            handleSysEnterAccept handleSysExitAccept handleSysBind
            handleSysExitBind handleSysConnect handleSysExitConnect
            handleSysEnterListen handleSysExitListen handleSysEnterRecvfrom
            handleSysExitRecvfrom handleSysSendto handleSysExitSendto] in Hin.
  all: try (now apply elem_of_nil in Hin).
  all: destruct (InitWithSample zeroTelemetryEventData sample) as [[] d];
       [|now apply elem_of_nil in Hin].
  all: apply list_elem_of_singleton in Hin; injection Hin as -> ->.
  all: cbn in Ha; try discriminate; now injection Ha as <-.
Qed.

(** C8.  The address data of every dispatched event carries the decoded
    sa_family, and: with AF_INET the IPv4 address and port are the
    sample's sin_addr and sin_port while the UNIX path and the IPv6
    fields are zero; with AF_INET6 the IPv6 fields are the sample's
    sin6 fields while the UNIX path and the IPv4 fields are zero; with
    AF_LOCAL the UNIX path is the sample's sun_path while the IPv4 and
    IPv6 fields are zero.  A sample with family 2, port 80 and address
    0x7F000001 decodes to exactly those, with zero IPv6 and UNIX
    fields. *)
Theorem C8_address_exclusive :
  forall h eventid sample id e addr,
    (id, e) ∈ handle h eventid sample ->
    addressOf e = Some addr ->
    Family addr = fst (GetUnsignedInt16 sample "sa_family") /\
    (Family addr = AF_INET ->
     IPv4Address addr = fst (GetUnsignedInt32 sample "sin_addr") /\
     IPv4Port addr = fst (GetUnsignedInt16 sample "sin_port") /\
     noUnixPath addr /\ noIPv6 addr) /\
    (Family addr = AF_INET6 ->
     IPv6AddressHigh addr = fst (GetUnsignedInt64 sample "sin6_addr_high") /\
     IPv6AddressLow addr = fst (GetUnsignedInt64 sample "sin6_addr_low") /\
     IPv6Port addr = fst (GetUnsignedInt16 sample "sin6_port") /\
     noUnixPath addr /\ noIPv4 addr) /\
    (Family addr = AF_LOCAL ->
     UnixPath addr = fst (GetString sample "sun_path") /\
     noIPv4 addr /\ noIPv6 addr) /\
    (sample !! "sa_family" = Some (VUnsignedInt16 2) ->
     sample !! "sin_port" = Some (VUnsignedInt16 80) ->
     sample !! "sin_addr" = Some (VUnsignedInt32 0x7F000001) ->
     Family addr = 2 /\
     IPv4Address addr = 0x7F000001 /\ IPv4Port addr = 80 /\
     noUnixPath addr /\ noIPv6 addr).
Proof.
  intros h eventid sample id e addr Hin Ha.
  rewrite (address_of_dispatched _ _ _ _ _ _ Hin Ha). clear.
  unfold NetworkAddress_initWithSample, noUnixPath, noIPv4, noIPv6,
    AF_LOCAL, AF_INET, AF_INET6.
  cbn [Family UnixPath IPv4Address IPv4Port IPv6AddressHigh IPv6AddressLow
       IPv6Port zeroNetworkAddress].
  split; [|split; [|split; [|split]]].
  - repeat match goal with
           | |- context [if ?b then _ else _] => destruct b
           end; reflexivity.
  - destruct (_ =? 1) eqn:E1; [apply Z.eqb_eq in E1; cbn; lia|].
    destruct (_ =? 2) eqn:E2; [cbn; tauto|]. apply Z.eqb_neq in E2.
    destruct (_ =? 10); cbn; intros; contradiction.
  - destruct (_ =? 1) eqn:E1; [apply Z.eqb_eq in E1; cbn; lia|].
    destruct (_ =? 2) eqn:E2; [apply Z.eqb_eq in E2; cbn; lia|].
    destruct (_ =? 10) eqn:E3; [cbn; tauto|]. apply Z.eqb_neq in E3.
    cbn; intros; contradiction.
  - destruct (_ =? 1) eqn:E1; [cbn; tauto|]. apply Z.eqb_neq in E1.
    destruct (_ =? 2); [cbn; intros; contradiction|].
    destruct (_ =? 10); cbn; intros; contradiction.
  - intros H1 H2 H3. unfold GetUnsignedInt16, GetUnsignedInt32.
    rewrite H1, H2, H3. cbn. tauto.
Qed.

(** C10.  When the decoded sa_family is none of AF_LOCAL, AF_INET and
    AF_INET6, the UNIX path, the IPv4 fields and the IPv6 fields of the
    dispatched event are all zero, and Family is the decoded
    sa_family. *)
Theorem C10_unknown_family_leaves_zero :
  forall h eventid sample id e addr,
    (id, e) ∈ handle h eventid sample ->
    addressOf e = Some addr ->
    Family addr <> AF_LOCAL ->
    Family addr <> AF_INET ->
    Family addr <> AF_INET6 ->
    noUnixPath addr /\ noIPv4 addr /\ noIPv6 addr /\
    Family addr = fst (GetUnsignedInt16 sample "sa_family").
Proof.
  intros h eventid sample id e addr Hin Ha.
  rewrite (address_of_dispatched _ _ _ _ _ _ Hin Ha). clear.
  unfold NetworkAddress_initWithSample, noUnixPath, noIPv4, noIPv6.
  cbn [Family UnixPath IPv4Address IPv4Port IPv6AddressHigh IPv6AddressLow
       IPv6Port zeroNetworkAddress].
  destruct (_ =? AF_LOCAL) eqn:E1;
    [apply Z.eqb_eq in E1; cbn; intros; contradiction|].
  destruct (_ =? AF_INET) eqn:E2;
    [apply Z.eqb_eq in E2; cbn; intros; contradiction|].
  destruct (_ =? AF_INET6) eqn:E3;
    [apply Z.eqb_eq in E3; cbn; intros; contradiction|].
  cbn. tauto.
Qed.

End DecodingProperties.

(** The bind handler on a sample without port and address. *)
Lemma C7_decoding_all_or_nothing_witness :
  if fst (exampleInit 0 sparseSample) then
    exists e,
      call Z 0 exampleInit fn_handleSysBind 7 sparseSample = [(7, e)] /\
      producedBy fn_handleSysBind e = true /\
      CommonTelemetryEventData e = snd (exampleInit 0 sparseSample) /\
      forall name t,
        declaredTypes fn_handleSysBind !! name = Some t ->
        sparseSample !! name = None ->
        eventField e name = Some (zeroValue t)
  else call Z 0 exampleInit fn_handleSysBind 7 sparseSample = [].
Proof.
  apply (C7_decoding_all_or_nothing Z 0 exampleInit fn_handleSysBind 7
           sparseSample).
  discriminate.
Defined.

(** What that handler dispatches: zero fd, port and address. *)
Example sparseSample_decoded :
  call Z 0 exampleInit fn_handleSysBind 7 sparseSample
  = [(7, NetworkBindAttemptTelemetryEvent 4242 (mkNetworkAttempt 0)
           (mkNetworkAddress 2 "" 0 0 0 0 0))].
Proof. vm_compute. reflexivity. Qed.

(** A sample without the pid is dropped whole. *)
Example dropped_sample :
  call Z 0 exampleInit fn_handleSysBind 7
    (list_to_map [("fd", VUnsignedInt64 3); ("sa_family", VUnsignedInt16 2)])
  = [].
Proof. vm_compute. reflexivity. Qed.

(** Scenario A: id 59 and the six arguments in arg0..arg5 order. *)
Example execveSample_decoded :
  call Z 0 exampleInit fn_handleSyscallTraceEnter 7 execveSample
  = [(7, SyscallEnterTelemetryEvent 4242 59 [11; 12; 13; 14; 15; 16])].
Proof. vm_compute. reflexivity. Qed.

(** Scenario B. *)
Lemma C8_address_exclusive_witness :
  Family bindAddress = fst (GetUnsignedInt16 bindSample "sa_family") /\
  (Family bindAddress = AF_INET ->
   IPv4Address bindAddress = fst (GetUnsignedInt32 bindSample "sin_addr") /\
   IPv4Port bindAddress = fst (GetUnsignedInt16 bindSample "sin_port") /\
   noUnixPath bindAddress /\ noIPv6 bindAddress) /\
  (Family bindAddress = AF_INET6 ->
   IPv6AddressHigh bindAddress
     = fst (GetUnsignedInt64 bindSample "sin6_addr_high") /\
   IPv6AddressLow bindAddress
     = fst (GetUnsignedInt64 bindSample "sin6_addr_low") /\
   IPv6Port bindAddress = fst (GetUnsignedInt16 bindSample "sin6_port") /\
   noUnixPath bindAddress /\ noIPv4 bindAddress) /\
  (Family bindAddress = AF_LOCAL ->
   UnixPath bindAddress = fst (GetString bindSample "sun_path") /\
   noIPv4 bindAddress /\ noIPv6 bindAddress) /\
  (bindSample !! "sa_family" = Some (VUnsignedInt16 2) ->
   bindSample !! "sin_port" = Some (VUnsignedInt16 80) ->
   bindSample !! "sin_addr" = Some (VUnsignedInt32 0x7F000001) ->
   Family bindAddress = 2 /\
   IPv4Address bindAddress = 0x7F000001 /\ IPv4Port bindAddress = 80 /\
   noUnixPath bindAddress /\ noIPv6 bindAddress).
Proof.
  apply (C8_address_exclusive Z 0 exampleInit fn_handleSysBind 7 bindSample
           7 bindEvent bindAddress).
  - vm_compute. constructor.
  - reflexivity.
Defined.

(** A sendto sample of family 17. *)
Lemma C10_unknown_family_leaves_zero_witness :
  noUnixPath packetAddress /\ noIPv4 packetAddress /\ noIPv6 packetAddress /\
  Family packetAddress = fst (GetUnsignedInt16 packetSample "sa_family").
Proof.
  apply (C10_unknown_family_leaves_zero Z 0 exampleInit fn_handleSysSendto 7
           packetSample 7 packetEvent packetAddress).
  - vm_compute. constructor.
  - reflexivity.
  - vm_compute. discriminate.
  - vm_compute. discriminate.
  - vm_compute. discriminate.
Defined.

(* ################################################################# *)
(** * Further properties of the code *)

(* ================================================================= *)
(** ** The shared dummy probe, continued *)

(** X1.  An acquire reports failure in one case only: the count was 0
    and the engine refused the dummy tracepoint.  It then leaves the
    count as it found it; in every other case, a count below zero
    included, it reports success with the count one higher (wrapping at
    the top of the range), whether or not the probe is registered. *)
Theorem X1_acquire_fails_only_when_refused :
  forall st,
    in_int64 (count_of st) ->
    exists b st',
      registerGlobalDummySyscallEvent st = Ok b st' /\
      (b = false <->
       count_of st = 0 /\ exists err, next_answer st = Refused err) /\
      (b = false -> count_of st' = count_of st) /\
      (b = true -> count_of st' = wrap_int64 (count_of st + 1)).
Proof.
  intros st Hr.
  destruct (acquire_effect st) as (b & st' & Hrun & _ & _ & _ & H).
  exists b, st'. split; [exact Hrun|].
  destruct (wrap_int64 (count_of st + 1) =? 1) eqn:E.
  - apply Z.eqb_eq in E. pose proof E as E0.
    apply wrap_succ_one in E0; [|exact Hr].
    destruct H as [_ H]. destruct (next_answer st) as [id|err].
    + destruct H as (-> & Hc & _). repeat split; try discriminate.
      * intros (_ & err & Herr). discriminate.
      * intros _. congruence.
    + destruct H as (-> & Hc & _). repeat split; eauto; try discriminate.
      intros _. congruence.
  - apply Z.eqb_neq in E. destruct H as (-> & _ & Hc & _).
    repeat split; try discriminate; try (intros; assumption).
    intros (E0 & _). exfalso. apply E. now apply wrap_succ_one.
Qed.

Lemma unregistersLatest_snoc l c :
  foldl trackID (None, true) (l ++ [c])
  = trackID (foldl trackID (None, true) l) c.
Proof. now rewrite foldl_snoc. Qed.

Lemma run_tracks_id ops : forall st,
  Z.abs (count_of st) + Z.of_nat (length ops) < 2 ^ 63 ->
  snd (foldl trackID (None, true) (log_of st)) = true ->
  (0 < count_of st ->
   fst (foldl trackID (None, true) (log_of st))
   = Some (dummySyscallEventID (sensor st))) ->
  exists bs st',
    run ops st = Ok bs st' /\
    snd (foldl trackID (None, true) (log_of st')) = true.
Proof.
  induction ops as [|[|] ops IH]; intros st Hb Hok Hid; cbn [length] in Hb.
  - exists [], st. split; [reflexivity|exact Hok].
  - assert (Hr : in_int64 (count_of st))
      by (unfold in_int64, int64_min, int64_max; lia).
    destruct (acquire_effect st) as (b & st1 & Hrun & _ & _ & _ & H).
    destruct (IH st1) as (bs & st2 & Hrun2 & Hok2).
    + destruct (wrap_int64 (count_of st + 1) =? 1) eqn:E.
      * destruct H as [_ H]. destruct (next_answer st);
          destruct H as (_ & -> & _); lia.
      * destruct H as (_ & _ & -> & _).
        rewrite wrap_int64_id by (unfold in_int64, int64_min, int64_max; lia).
        lia.
    + destruct (wrap_int64 (count_of st + 1) =? 1) eqn:E.
      * destruct H as [-> H]. rewrite unregistersLatest_snoc.
        destruct (next_answer st); cbn; exact Hok.
      * destruct H as (_ & -> & _). exact Hok.
    + destruct (wrap_int64 (count_of st + 1) =? 1) eqn:E.
      * destruct H as [-> H]. rewrite unregistersLatest_snoc.
        destruct (next_answer st) as [id|err].
        -- destruct H as (_ & _ & ->). reflexivity.
        -- destruct H as (_ & -> & _). lia.
      * apply Z.eqb_neq in E. destruct H as (_ & -> & -> & ->).
        rewrite wrap_int64_id by (unfold in_int64, int64_min, int64_max; lia).
        intros Hpos. apply Hid.
        assert (count_of st <> 0)
          by (intros E0; apply E; now apply wrap_succ_one).
        lia.
    + exists (b :: bs), st2. split; [eapply run_acquire; eassumption|exact Hok2].
  - assert (Hr : in_int64 (count_of st))
      by (unfold in_int64, int64_min, int64_max; lia).
    destruct (release_effect st) as (st1 & Hrun & _ & _ & _ & Hc & He & Hl).
    rewrite wrap_int64_id in Hc
      by (unfold in_int64, int64_min, int64_max; lia).
    destruct (IH st1) as (bs & st2 & Hrun2 & Hok2).
    + lia.
    + rewrite Hl. destruct (wrap_int64 (count_of st + -1) =? 0) eqn:E.
      * apply Z.eqb_eq, wrap_pred_zero in E; [|exact Hr].
        rewrite unregistersLatest_snoc. cbn. rewrite Hok, Hid by lia.
        cbn. now rewrite Z.eqb_refl.
      * exact Hok.
    + rewrite Hc, He, Hl. intros Hpos.
      destruct (wrap_int64 (count_of st + -1) =? 0) eqn:E.
      * apply Z.eqb_eq, wrap_pred_zero in E; [|exact Hr]. lia.
      * apply Hid. lia.
    + exists bs, st2. split; [eapply run_release; eassumption|exact Hok2].
Qed.

(** X2.  Whatever the sequence of acquires and releases and whatever the
    engine answers, every [UnregisterEvent] that a release issues names
    the event id that the engine gave to the latest accepted dummy
    registration. *)
Theorem X2_release_unregisters_latest_registration :
  forall st ops,
    count_of st = 0 ->
    unregistersLatest (log_of st) = true ->
    Z.of_nat (length ops) < 2 ^ 63 ->
    exists bs st',
      run ops st = Ok bs st' /\
      unregistersLatest (log_of st') = true.
Proof.
  intros st ops Hc Hok Hb.
  apply run_tracks_id; [lia|exact Hok|lia].
Qed.

Lemma X1_acquire_fails_only_when_refused_witness :
  exists b st',
    registerGlobalDummySyscallEvent exampleState = Ok b st' /\
    (b = false <->
     count_of exampleState = 0 /\
     exists err, next_answer exampleState = Refused err) /\
    (b = false -> count_of st' = count_of exampleState) /\
    (b = true -> count_of st' = wrap_int64 (count_of exampleState + 1)).
Proof.
  apply (X1_acquire_fails_only_when_refused exampleState).
  unfold in_int64, int64_min, int64_max. cbn. lia.
Defined.

Lemma X2_release_unregisters_latest_registration_witness :
  exists bs st',
    run [Acquire; Release; Acquire; Acquire; Release; Release; Release]
        exampleState = Ok bs st' /\
    unregistersLatest (log_of st') = true.
Proof.
  apply (X2_release_unregisters_latest_registration exampleState
           [Acquire; Release; Acquire; Acquire; Release; Release; Release]).
  - reflexivity.
  - reflexivity.
  - reflexivity.
Defined.

(* ================================================================= *)
(** ** Registration calls, continued *)

Ltac to_arith :=
  repeat match goal with
         | H : (_ =? _) = true |- _ => apply Z.eqb_eq in H
         | H : (_ =? _) = false |- _ => apply Z.eqb_neq in H
         | H : (_ <? _) = true |- _ => apply Z.ltb_lt in H
         | H : (_ <? _) = false |- _ => apply Z.ltb_ge in H
         end.

Lemma register_step r st st' :
  3 <= majorOf st ->
  Z.abs (count_of st) < int64_max ->
  register r st = Ok tt st' ->
  kernelVersion st' = kernelVersion st /\
  ((countCalls isKprobeRegistered (log_of st')
      = countCalls isKprobeRegistered (log_of st) /\
    count_of st' = count_of st) \/
   (countCalls isKprobeRegistered (log_of st')
      = S (countCalls isKprobeRegistered (log_of st)) /\
    count_of st' = count_of st + 1)).
Proof.
  intros Hmajor Hb H. break_all st. exec_in Hmajor. exec_in Hb.
  assert (Hr : in_int64 cnt)
    by (unfold in_int64, int64_min, int64_max in *; lia).
  destruct r as [filter|filter].
  all: conclude H.
  all: split; [reflexivity|].
  all: rewrite ?countCalls_snoc;
       cbn [isKprobeRegistered isDummyRegistered isUnregisterEvent].
  all: to_arith; try lia.
  all: pose proof (wrap_succ_pred cnt Hr) as P1.
  all: try rewrite P1.
  all: rewrite ?(wrap_int64_id (cnt + 1))
         by (unfold in_int64, int64_min, int64_max in *; lia).
  all: first [left; split; [lia|reflexivity] | right; split; [lia|reflexivity]].
Qed.

(** X3.  On a kernel with major version 3 or more, across any sequence
    of syscall-enter and syscall-exit registration calls that returns,
    the reference count grows by exactly the number of kprobes that the
    engine accepted: one count per handle that carries the release hook,
    none for a call that failed and none for an exit registration. *)
Theorem X3_count_is_number_of_registered_kprobes :
  forall rs st st',
    3 <= majorOf st ->
    Z.abs (count_of st) + Z.of_nat (length rs) < 2 ^ 63 ->
    registerAll rs st = Ok tt st' ->
    count_of st' + Z.of_nat (countCalls isKprobeRegistered (log_of st))
    = count_of st + Z.of_nat (countCalls isKprobeRegistered (log_of st')).
Proof.
  induction rs as [|r rs IH]; intros st st' Hmajor Hb H; cbn [length] in Hb.
  - injection H as <-. lia.
  - rewrite registerAll_cons in H.
    destruct (register r st) as [[] st1|msg] eqn:E; [|discriminate].
    apply register_step in E; [|exact Hmajor|unfold int64_max; lia].
    destruct E as [Hv Hcase].
    assert (Hm1 : 3 <= majorOf st1) by (unfold majorOf in *; now rewrite Hv).
    specialize (IH st1 st' Hm1).
    destruct Hcase as [[Hk Hc]|[Hk Hc]]; rewrite Hk, Hc in IH;
      specialize (IH ltac:(lia) H); lia.
Qed.

(** X4.  A call of [RegisterSyscallEnterEventFilter] asks the engine for
    its kprobe exactly once when nothing it set up before was refused, and
    not at all when the engine refused the subscription's event group or
    the dummy tracepoint. *)
Theorem X4_kprobe_requested_iff_setup_accepted :
  forall filter st st',
    RegisterSyscallEnterEventFilter filter st = Ok tt st' ->
    exists new,
      log_of st' = log_of st ++ new /\
      countCalls isKprobeCall new
      = (if Nat.eqb (countCalls isRefusedSetup new) 0 then 1 else 0)%nat.
Proof.
  intros filter st st' H. break_all st.
  conclude H.
  all: rewrite <- ?app_assoc; cbn [app].
  all: eexists; split; [try reflexivity; symmetry; apply app_nil_r|].
  all: reflexivity.
Qed.

(** X5.  Every dummy tracepoint that a call of
    [RegisterSyscallEnterEventFilter] registers is the resolved sys_enter
    tracepoint with the filter id == 0x7fffffff; it goes to the container
    cache's event group when the kernel major version is 3 or more and to
    the subscription's own group below that. *)
Theorem X5_dummy_registration_parameters :
  forall filter st st',
    RegisterSyscallEnterEventFilter filter st = Ok tt st' ->
    exists new,
      log_of st' = log_of st ++ new /\
      Forall (dummyRegistrationOk (syscallEnterName (globals st'))
                (if majorOf st <? 3 then eventGroupID (sub st')
                 else ContainerCache_EventGroupID (sensor st)))
        new.
Proof.
  intros filter st st' H. break_all st.
  conclude H.
  all: rewrite <- ?app_assoc; cbn [app].
  all: eexists; split; [try reflexivity; symmetry; apply app_nil_r|].
  all: repeat match goal with
       | E : (_ <? _) = _ |- _ => rewrite E
       end.
  all: repeat constructor.
Qed.

Lemma X3_count_is_number_of_registered_kprobes_witness :
  count_of (final (registerAll [SyscallEnter "id == 59"; SyscallExit "ret < 0";
                                SyscallEnter "id == 1"] exampleState)
              exampleState)
    + Z.of_nat (countCalls isKprobeRegistered (log_of exampleState))
  = count_of exampleState
    + Z.of_nat
        (countCalls isKprobeRegistered
           (log_of (final (registerAll [SyscallEnter "id == 59";
                                        SyscallExit "ret < 0";
                                        SyscallEnter "id == 1"] exampleState)
                      exampleState))).
Proof.
  apply (X3_count_is_number_of_registered_kprobes
           [SyscallEnter "id == 59"; SyscallExit "ret < 0"; SyscallEnter "id == 1"]
           exampleState).
  - vm_compute. discriminate.
  - vm_compute. reflexivity.
  - vm_compute. reflexivity.
Defined.

(** The engine refuses the dummy tracepoint: no kprobe is asked for. *)
Lemma X4_kprobe_requested_iff_setup_accepted_witness :
  exists new,
    log_of (final (RegisterSyscallEnterEventFilter "id == 59" dummyRefused)
              dummyRefused)
      = log_of dummyRefused ++ new /\
    countCalls isKprobeCall new
    = (if Nat.eqb (countCalls isRefusedSetup new) 0 then 1 else 0)%nat.
Proof.
  apply (X4_kprobe_requested_iff_setup_accepted "id == 59" dummyRefused
           (final (RegisterSyscallEnterEventFilter "id == 59" dummyRefused)
              dummyRefused)).
  vm_compute. reflexivity.
Defined.

Example dummyRefused_log :
  log_of (final (RegisterSyscallEnterEventFilter "id == 59" dummyRefused)
            dummyRefused)
  = [DoesTracepointExist "raw_syscalls/sys_enter" true;
     RegisterTracepoint "raw_syscalls/sys_enter" fn_handleDummySysEnter 1
       "id == 0x7fffffff" (Refused "refused")].
Proof. vm_compute. reflexivity. Qed.

Lemma X5_dummy_registration_parameters_witness :
  exists new,
    log_of (final (RegisterSyscallEnterEventFilter "id == 59" oldKernel)
              oldKernel)
      = log_of oldKernel ++ new /\
    Forall (dummyRegistrationOk
              (syscallEnterName
                 (globals (final (RegisterSyscallEnterEventFilter "id == 59"
                                    oldKernel) oldKernel)))
              (if majorOf oldKernel <? 3 then
                 eventGroupID
                   (sub (final (RegisterSyscallEnterEventFilter "id == 59"
                                  oldKernel) oldKernel))
               else ContainerCache_EventGroupID (sensor oldKernel)))
      new.
Proof.
  apply (X5_dummy_registration_parameters "id == 59" oldKernel
           (final (RegisterSyscallEnterEventFilter "id == 59" oldKernel)
              oldKernel)).
  vm_compute. reflexivity.
Defined.

(** X6.  Each of the twelve network registration calls returns, whatever
    the engine answers.  It asks the engine for all of its probes, one or
    two, also when the first is refused; each request carries the call's
    handler, the subscription's event group and the caller's filter, and
    no kprobe is a return probe.  The call leaves the reference count,
    the stored dummy event id and the resolved syscall names alone, and
    the handles it adds carry no release hook. *)
Theorem X6_network_registration_attempts_every_probe :
  forall nf expr st,
    exists st' new,
      registerNetwork nf expr st = Ok tt st' /\
      log_of st' = log_of st ++ new /\
      length new = probeCount nf /\
      Forall (probeFor (handlerOf nf) (eventGroupID (sub st)) expr) new /\
      count_of st' = count_of st /\
      dummySyscallEventID (sensor st') = dummySyscallEventID (sensor st) /\
      globals st' = globals st /\
      eventGroupID (sub st') = eventGroupID (sub st) /\
      (forall id es,
         eventSinks (sub st') !! id = Some es ->
         eventSinks (sub st) !! id = Some es \/ unregister es = None).
Proof.
  intros nf expr st. break_all st.
  destruct nf;
    cbv [registerNetwork
         RegisterNetworkAcceptAttemptEventFilter
         RegisterNetworkAcceptResultEventFilter
         RegisterNetworkBindAttemptEventFilter
         RegisterNetworkBindResultEventFilter
         RegisterNetworkConnectAttemptEventFilter
         RegisterNetworkConnectResultEventFilter
         RegisterNetworkListenAttemptEventFilter
         RegisterNetworkListenResultEventFilter
         RegisterNetworkRecvfromAttemptEventFilter
         RegisterNetworkRecvfromResultEventFilter
         RegisterNetworkSendtoAttemptEventFilter
         RegisterNetworkSendtoResultEventFilter]; exec.
  all: destruct (ans (length log)) as [id1|err1]; exec.
  all: try (destruct (ans (length (log ++ [_]))) as [id2|err2]; exec).
  all: do 2 eexists; split; [reflexivity|].
  all: rewrite <- ?app_assoc; cbn [app].
  all: split; [reflexivity|].
  all: split; [reflexivity|].
  all: split; [repeat constructor|].
  all: do 4 (split; [reflexivity|]).
  all: intros id es; rewrite ?lookup_insert; repeat case_decide;
       try (intros [= <-]; right; reflexivity); intros Hl; now left.
Qed.

(* ================================================================= *)
(** ** Decoding, continued *)

Section MoreDecoding.

Variable TelemetryEventData : Type.
Variable zeroTelemetryEventData : TelemetryEventData.
Variable InitWithSample :
  TelemetryEventData -> Sample -> bool * TelemetryEventData.

Local Abbreviation handle :=
  (call TelemetryEventData zeroTelemetryEventData InitWithSample).

(** X7.  A sample that carries id and arg0..arg5 with their declared
    types decodes, when the envelope initialises, to one syscall-enter
    event with that ID and with those six values as Arguments, in
    arg0..arg5 order. *)
Theorem X7_syscall_enter_round_trip :
  forall eventid (sample : Sample) d id a0 a1 a2 a3 a4 a5,
    InitWithSample zeroTelemetryEventData sample = (true, d) ->
    sample !! "id" = Some (VSignedInt64 id) ->
    sample !! "arg0" = Some (VUnsignedInt64 a0) ->
    sample !! "arg1" = Some (VUnsignedInt64 a1) ->
    sample !! "arg2" = Some (VUnsignedInt64 a2) ->
    sample !! "arg3" = Some (VUnsignedInt64 a3) ->
    sample !! "arg4" = Some (VUnsignedInt64 a4) ->
    sample !! "arg5" = Some (VUnsignedInt64 a5) ->
    handle fn_handleSyscallTraceEnter eventid sample
    = [(eventid, SyscallEnterTelemetryEvent d id [a0; a1; a2; a3; a4; a5])].
Proof.
  intros eventid sample d id a0 a1 a2 a3 a4 a5 Hinit Hid H0 H1 H2 H3 H4 H5.
  cbv [call handleSyscallTraceEnter]. rewrite Hinit.
  unfold fillArguments, GetSignedInt64. rewrite Hid.
  cbn -[GetUnsignedInt64]. unfold GetUnsignedInt64.
  rewrite H0, H1, H2, H3, H4, H5. reflexivity.
Qed.

Lemma present_getters (sample : Sample) name v :
  sample !! name = Some v ->
  match v with
  | VString s => GetString sample name = (s, false)
  | VSignedInt64 z => GetSignedInt64 sample name = (z, false)
  | VUnsignedInt16 z => GetUnsignedInt16 sample name = (z, false)
  | VUnsignedInt32 z => GetUnsignedInt32 sample name = (z, false)
  | VUnsignedInt64 z => GetUnsignedInt64 sample name = (z, false)
  end.
Proof.
  intros H. unfold GetSignedInt64, GetUnsignedInt16, GetUnsignedInt32,
    GetUnsignedInt64, GetString. rewrite H. destruct v; reflexivity.
Qed.

(** X8.  For every handler and every declared field other than the
    family-dependent address fields: when the sample carries the field
    with its declared type, the dispatched event holds exactly that
    value. *)
Theorem X8_present_field_is_decoded :
  forall h eventid (sample : Sample) id e name t v,
    (id, e) ∈ handle h eventid sample ->
    declaredTypes h !! name = Some t ->
    familyDependent name = false ->
    sample !! name = Some v ->
    typeOf v = t ->
    eventField e name = Some v.
Proof.
  intros h eventid sample id e name t v Hin Hdecl Hfam Hv Ht.
  destruct h.
  all: cbv [call handleDummySysEnter
            handleSyscallTraceEnter handleSysExit
            handleSysEnterAccept handleSysExitAccept handleSysBind
            handleSysExitBind handleSysConnect handleSysExitConnect
            handleSysEnterListen handleSysExitListen handleSysEnterRecvfrom
            handleSysExitRecvfrom handleSysSendto handleSysExitSendto] in Hin.
  all: try (now apply elem_of_nil in Hin).
  all: destruct (InitWithSample zeroTelemetryEventData sample) as [[] d];
       [|now apply elem_of_nil in Hin].
  all: apply list_elem_of_singleton in Hin; injection Hin as -> ->.
  all: cbv [declaredTypes SyscallEnterEventTypes SyscallExitEventTypes
            NetworkAttemptEventTypes NetworkAttemptWithAddressEventTypes
            NetworkListenAttemptEventTypes NetworkResultEventTypes] in Hdecl.
  all: apply elem_of_list_to_map_2 in Hdecl.
  all: repeat (apply elem_of_cons in Hdecl as [Hdecl|Hdecl];
               [injection Hdecl as -> ->|]).
  all: try (now apply elem_of_nil in Hdecl).
  all: try discriminate Hfam.
  all: destruct v; try discriminate Ht.
  all: pose proof (present_getters _ _ _ Hv) as G; cbn beta iota in G.
  all: cbn -[GetSignedInt64 GetUnsignedInt16 GetUnsignedInt32
             GetUnsignedInt64 GetString Z.eqb NetworkAddress_initWithSample].
  all: rewrite ?G; try reflexivity.
  all: unfold NetworkAddress_initWithSample;
       cbn -[GetSignedInt64 GetUnsignedInt16 GetUnsignedInt32
             GetUnsignedInt64 GetString Z.eqb].
  all: repeat match goal with
       | |- context [if ?b then _ else _] => destruct b
       end.
  all: cbn -[GetSignedInt64 GetUnsignedInt16 GetUnsignedInt32
             GetUnsignedInt64 GetString Z.eqb].
  all: rewrite ?G; reflexivity.
Qed.

Ltac use_same G name :=
  try (let H := fresh in
       let E1 := fresh in let E2 := fresh in let E3 := fresh in
       let E4 := fresh in let E5 := fresh in
       lazymatch type of G with
       | forall n, is_Some (declaredTypes ?h !! n) -> _ =>
           assert (H : is_Some (declaredTypes h !! name))
             by (eexists; vm_compute; reflexivity)
       end;
       destruct (G name H) as (E1 & E2 & E3 & E4 & E5);
       rewrite ?E1, ?E2, ?E3, ?E4, ?E5;
       clear H E1 E2 E3 E4 E5).

(** X9.  A handler reads nothing but its declared fields: two samples
    that agree on them, and on which the envelope initialises alike, are
    dispatched as the same events. *)
Theorem X9_decoding_reads_declared_fields_only :
  forall h eventid (s1 s2 : Sample),
    (forall name, is_Some (declaredTypes h !! name) -> s1 !! name = s2 !! name) ->
    InitWithSample zeroTelemetryEventData s1
      = InitWithSample zeroTelemetryEventData s2 ->
    handle h eventid s1 = handle h eventid s2.
Proof.
  intros h eventid s1 s2 Hsame Hinit.
  assert (G : forall name,
             is_Some (declaredTypes h !! name) ->
             GetSignedInt64 s1 name = GetSignedInt64 s2 name /\
             GetUnsignedInt16 s1 name = GetUnsignedInt16 s2 name /\
             GetUnsignedInt32 s1 name = GetUnsignedInt32 s2 name /\
             GetUnsignedInt64 s1 name = GetUnsignedInt64 s2 name /\
             GetString s1 name = GetString s2 name).
  { intros name Hd. unfold GetSignedInt64, GetUnsignedInt16, GetUnsignedInt32,
      GetUnsignedInt64, GetString. rewrite (Hsame name Hd). tauto. }
  clear Hsame.
  destruct h.
  all: cbv [call handleDummySysEnter
            handleSyscallTraceEnter handleSysExit
            handleSysEnterAccept handleSysExitAccept handleSysBind
            handleSysExitBind handleSysConnect handleSysExitConnect
            handleSysEnterListen handleSysExitListen handleSysEnterRecvfrom
            handleSysExitRecvfrom handleSysSendto handleSysExitSendto
            fillArguments NetworkAttempt_initWithSample
            NetworkResult_initWithSample NetworkAddress_initWithSample].
  all: try reflexivity.
  all: rewrite Hinit;
       destruct (InitWithSample zeroTelemetryEventData s2) as [[] d];
       [|reflexivity].
  all: cbn -[GetSignedInt64 GetUnsignedInt16 GetUnsignedInt32
             GetUnsignedInt64 GetString Z.eqb].
  all: use_same G "id"%string; use_same G "ret"%string;
       use_same G "fd"%string; use_same G "backlog"%string;
       use_same G "arg0"%string; use_same G "arg1"%string;
       use_same G "arg2"%string; use_same G "arg3"%string;
       use_same G "arg4"%string; use_same G "arg5"%string;
       use_same G "sa_family"%string; use_same G "sun_path"%string;
       use_same G "sin_addr"%string; use_same G "sin_port"%string;
       use_same G "sin6_port"%string; use_same G "sin6_addr_high"%string;
       use_same G "sin6_addr_low"%string.
  all: reflexivity.
Qed.

End MoreDecoding.

Lemma X7_syscall_enter_round_trip_witness :
  call Z 0 exampleInit fn_handleSyscallTraceEnter 7 execveSample
  = [(7, SyscallEnterTelemetryEvent 4242 59 [11; 12; 13; 14; 15; 16])].
Proof.
  apply (X7_syscall_enter_round_trip Z 0 exampleInit 7 execveSample 4242 59
           11 12 13 14 15 16); vm_compute; reflexivity.
Defined.

Lemma X8_present_field_is_decoded_witness :
  eventField bindEvent "fd" = Some (VUnsignedInt64 3).
Proof.
  apply (X8_present_field_is_decoded Z 0 exampleInit fn_handleSysBind 7
           bindSample 7 bindEvent "fd" ValueTypeUnsignedInt64
           (VUnsignedInt64 3)).
  - vm_compute. constructor.
  - vm_compute. reflexivity.
  - vm_compute. reflexivity.
  - vm_compute. reflexivity.
  - reflexivity.
Defined.

Lemma X9_decoding_reads_declared_fields_only_witness :
  call Z 0 exampleInit fn_handleSysBind 7 bindSample
  = call Z 0 exampleInit fn_handleSysBind 7 bindSampleWithComm.
Proof.
  apply (X9_decoding_reads_declared_fields_only Z 0 exampleInit
           fn_handleSysBind 7 bindSample bindSampleWithComm).
  - intros name [t Ht].
    apply elem_of_list_to_map_2 in Ht.
    repeat (apply elem_of_cons in Ht as [Ht|Ht];
            [injection Ht as -> ->; vm_compute; reflexivity|]).
    now apply elem_of_nil in Ht.
  - vm_compute. reflexivity.
Defined.

(* ================================================================= *)
(** ** telemetryd: the Pub/Sub path *)

Import telemetryd.

Lemma Split_nonempty sep s : Split sep s <> [].
Proof.
  destruct s as [|c s]; cbn; [discriminate|].
  destruct (Ascii.eqb c sep); [discriminate|].
  destruct (Split sep s); discriminate.
Qed.

Lemma Split_free sep s : free sep s = true -> Split sep s = [s].
Proof.
  induction s as [|c s IH]; cbn [Split free]; [reflexivity|].
  intros H. apply andb_true_iff in H as [Hc Hs].
  apply negb_true_iff in Hc. rewrite Hc, (IH Hs). reflexivity.
Qed.

Lemma Split_app sep s t :
  free sep s = true ->
  Split sep (s +:+ String sep t) = s :: Split sep t.
Proof.
  induction s as [|c s IH]; cbn [String.append Split free]; intros H.
  - simpl. now rewrite Ascii.eqb_refl.
  - apply andb_true_iff in H as [Hc Hs]. apply negb_true_iff in Hc.
    simpl. rewrite Hc, (IH Hs). reflexivity.
Qed.

Lemma Split_path project topic :
  free slash project = true ->
  free slash topic = true ->
  Split slash ("projects/" +:+ project +:+ "/topics/" +:+ topic)
  = ["projects"; project; "topics"; topic]%string.
Proof.
  intros Hp Ht.
  change ("projects/" +:+ project +:+ "/topics/" +:+ topic)
    with ("projects" +:+ String slash (project +:+ String slash
            ("topics" +:+ String slash topic))).
  rewrite Split_app by reflexivity.
  rewrite Split_app by exact Hp.
  rewrite Split_app by reflexivity.
  now rewrite Split_free.
Qed.

Lemma connect_parts ps flags path project topic rest :
  Split slash path = "projects"%string :: project :: "topics"%string :: topic :: rest ->
  connectToPubsubTopic ps flags path
  = match NewClient ps project (optionsFor flags) with
    | Some err =>
        ([CallNewClient project (optionsFor flags)],
         Returns (None, Some err))
    | None =>
        ([CallNewClient project (optionsFor flags);
          CallExists project topic],
         Returns
           match Exists ps project (optionsFor flags) topic with
           | (_, Some err) => (None, Some err)
           | (false, None) => (None, None)
           | (true, None) => (Some (project, topic), None)
           end)
    end.
Proof.
  intros Hs. unfold connectToPubsubTopic. rewrite Hs.
  unfold optionsFor. cbn.
  destruct (NewClient ps project _); [reflexivity|].
  destruct (Exists ps project _ topic) as [[] []]; reflexivity.
Qed.

(** X10.  A path projects/P/topics/T, with no slash inside P or T, makes
    the call create a client for project P with the options the flags
    ask for and ask it about topic T.  The client's error or the
    existence check's error is returned as it is; a topic that exists is
    returned as the handle for (P, T); a topic that does not exist gives
    neither a topic nor an error. *)
Theorem X10_connect_well_formed_path :
  forall ps flags project topic,
    free slash project = true ->
    free slash topic = true ->
    connectToPubsubTopic ps flags
      ("projects/" +:+ project +:+ "/topics/" +:+ topic)
    = match NewClient ps project (optionsFor flags) with
      | Some err =>
          ([CallNewClient project (optionsFor flags)],
           Returns (None, Some err))
      | None =>
          ([CallNewClient project (optionsFor flags);
            CallExists project topic],
           Returns
             match Exists ps project (optionsFor flags) topic with
             | (_, Some err) => (None, Some err)
             | (false, None) => (None, None)
             | (true, None) => (Some (project, topic), None)
             end)
      end.
Proof.
  intros ps flags project topic Hp Ht.
  apply connect_parts with (rest := []). now apply Split_path.
Qed.

(** X11.  Whatever follows the topic after a further slash is ignored:
    the call behaves as on the path cut after the topic. *)
Theorem X11_connect_ignores_trailing_components :
  forall ps flags project topic extra,
    free slash project = true ->
    free slash topic = true ->
    connectToPubsubTopic ps flags
      ("projects/" +:+ project +:+ "/topics/" +:+ topic +:+ "/" +:+ extra)
    = connectToPubsubTopic ps flags
        ("projects/" +:+ project +:+ "/topics/" +:+ topic).
Proof.
  intros ps flags project topic extra Hp Ht.
  rewrite (connect_parts ps flags _ project topic [] (Split_path _ _ Hp Ht)).
  apply connect_parts with (rest := Split slash extra).
  change ("projects/" +:+ project +:+ "/topics/" +:+ topic +:+ "/" +:+ extra)
    with ("projects" +:+ String slash (project +:+ String slash
            ("topics" +:+ String slash (topic +:+ String slash extra)))).
  rewrite Split_app by reflexivity.
  rewrite Split_app by exact Hp.
  rewrite Split_app by reflexivity.
  now rewrite Split_app by exact Ht.
Qed.

(** X12.  Whenever the call returns: every client it created got the
    options the flags ask for, and with the emulator flag set these never
    include the credentials file; a topic is returned only without an
    error and only after the service said that it exists; and neither a
    topic nor an error is returned exactly after the service said,
    without an error, that the topic does not exist. *)
Theorem X12_connect_result_shape :
  forall ps flags path calls topic err,
    connectToPubsubTopic ps flags path = (calls, Returns (topic, err)) ->
    (forall c, c ∈ calls ->
       match c with
       | CallNewClient _ options =>
           options = optionsFor flags /\
           (useEmulator flags = true ->
            forall file, WithCredentialsFile file ∉ options)
       | CallExists _ _ => True
       end) /\
    (forall t, topic = Some t ->
       err = None /\ calls = [CallNewClient (fst t) (optionsFor flags);
                              CallExists (fst t) (snd t)] /\
       Exists ps (fst t) (optionsFor flags) (snd t) = (true, None)) /\
    (topic = None -> err = None ->
       exists project t,
         calls = [CallNewClient project (optionsFor flags);
                  CallExists project t] /\
         Exists ps project (optionsFor flags) t = (false, None)).
Proof.
  intros ps flags path calls topic err H.
  assert (Hopt : useEmulator flags = true ->
                 forall file, WithCredentialsFile file ∉ optionsFor flags).
  { intros Hem file. unfold optionsFor. rewrite Hem.
    intros Hin. repeat (apply elem_of_cons in Hin as [Hin|Hin];
                        [discriminate|]).
    now apply elem_of_nil in Hin. }
  unfold connectToPubsubTopic in H.
  destruct (Split slash path) as [|p0 [|p1 [|p2 [|p3 rest]]]];
    cbn [lookup list_lookup] in H; try discriminate.
  all: destruct (negb (String.eqb p0 "projects")); try discriminate.
  all: try (injection H as <- <- <-;
            split; [intros c Hc; now apply elem_of_nil in Hc|];
            split; intros; discriminate).
  all: destruct (negb (String.eqb p2 "topics")); try discriminate.
  all: try (injection H as <- <- <-;
            split; [intros c Hc; now apply elem_of_nil in Hc|];
            split; intros; discriminate).
  fold (optionsFor flags) in H.
  destruct (NewClient ps p1 (optionsFor flags)) as [e|].
  - injection H as <- <- <-. split; [|split; intros; discriminate].
    intros c Hc. apply list_elem_of_singleton in Hc as ->. auto.
  - destruct (Exists ps p1 (optionsFor flags) p3) as [[] [e|]] eqn:E;
      injection H as <- <- <-.
    all: split;
      [intros c Hc;
       repeat (apply elem_of_cons in Hc as [->|Hc]; [cbn; auto|]);
       now apply elem_of_nil in Hc|].
    all: split; [intros t [= <-]; cbn; auto|]; try (intros; discriminate).
    all: intros _ _; eauto.
Qed.

(** X13.  A path whose first component is not projects, or whose third
    component exists and is not topics, is answered with the error could
    not parse pubsub path followed by the path.  A path that starts with
    projects and has fewer than three components, or that reads
    projects/P/topics and stops there, makes the call panic on an index
    out of range.  In all four cases no call reaches the service. *)
Theorem X13_connect_malformed_path :
  forall ps flags path parts,
    parts = Split slash path ->
    (parts !! 0%nat <> Some "projects"%string ->
     connectToPubsubTopic ps flags path
     = ([], Returns (None, Some ("could not parse pubsub path " +:+ path)))) /\
    (parts !! 0%nat = Some "projects"%string ->
     (length parts < 3)%nat ->
     connectToPubsubTopic ps flags path = ([], Panics)) /\
    (parts !! 0%nat = Some "projects"%string ->
     (3 <= length parts)%nat ->
     parts !! 2%nat <> Some "topics"%string ->
     connectToPubsubTopic ps flags path
     = ([], Returns (None, Some ("could not parse pubsub path " +:+ path)))) /\
    (parts !! 0%nat = Some "projects"%string ->
     parts !! 2%nat = Some "topics"%string ->
     length parts = 3%nat ->
     connectToPubsubTopic ps flags path = ([], Panics)).
Proof.
  intros ps flags path parts Hparts.
  unfold connectToPubsubTopic. rewrite <- Hparts.
  pose proof (Split_nonempty slash path) as Hne. rewrite <- Hparts in Hne.
  clear Hparts.
  destruct parts as [|p0 [|p1 [|p2 [|p3 rest]]]]; [contradiction|..];
    cbn [lookup list_lookup length].
  all: repeat split; intros; try (cbn in *; lia); try congruence.
  all: repeat match goal with
       | H : Some _ = Some _ |- _ => injection H as ->
       end.
  all: repeat match goal with
       | H : Some ?p <> Some ?q |- context [String.eqb ?p ?q] =>
           let E := fresh in
           destruct (String.eqb p q) eqn:E;
             [apply String.eqb_eq in E; subst; contradiction|];
           clear H
       end.
  all: cbn; reflexivity.
Qed.

Lemma X10_connect_well_formed_path_witness :
  connectToPubsubTopic examplePubsub exampleFlags
    ("projects/" +:+ "acme" +:+ "/topics/" +:+ "events")
  = match NewClient examplePubsub "acme" (optionsFor exampleFlags) with
    | Some err =>
        ([CallNewClient "acme" (optionsFor exampleFlags)],
         Returns (None, Some err))
    | None =>
        ([CallNewClient "acme" (optionsFor exampleFlags);
          CallExists "acme" "events"],
         Returns
           match Exists examplePubsub "acme" (optionsFor exampleFlags) "events" with
           | (_, Some err) => (None, Some err)
           | (false, None) => (None, None)
           | (true, None) => (Some ("acme", "events"), None)
           end)
    end.
Proof.
  apply (X10_connect_well_formed_path examplePubsub exampleFlags
           "acme" "events"); reflexivity.
Defined.

Lemma X11_connect_ignores_trailing_components_witness :
  connectToPubsubTopic examplePubsub exampleFlags
    ("projects/" +:+ "acme" +:+ "/topics/" +:+ "events" +:+ "/" +:+ "x/y")
  = connectToPubsubTopic examplePubsub exampleFlags
      ("projects/" +:+ "acme" +:+ "/topics/" +:+ "events").
Proof.
  apply (X11_connect_ignores_trailing_components examplePubsub exampleFlags
           "acme" "events" "x/y"); reflexivity.
Defined.

(** The topic missing does not exist for the example service. *)
Lemma X12_connect_result_shape_witness :
  (forall c,
     c ∈ [CallNewClient "acme" (optionsFor exampleFlags);
          CallExists "acme" "missing"] ->
     match c with
     | CallNewClient _ options =>
         options = optionsFor exampleFlags /\
         (useEmulator exampleFlags = true ->
          forall file, WithCredentialsFile file ∉ options)
     | CallExists _ _ => True
     end) /\
  (forall t, @None Topic = Some t ->
     @None string = None /\
     [CallNewClient "acme" (optionsFor exampleFlags);
      CallExists "acme" "missing"]
     = [CallNewClient (fst t) (optionsFor exampleFlags);
        CallExists (fst t) (snd t)] /\
     Exists examplePubsub (fst t) (optionsFor exampleFlags) (snd t)
     = (true, None)) /\
  (@None Topic = None -> @None string = None ->
   exists project t,
     [CallNewClient "acme" (optionsFor exampleFlags);
      CallExists "acme" "missing"]
     = [CallNewClient project (optionsFor exampleFlags);
        CallExists project t] /\
     Exists examplePubsub project (optionsFor exampleFlags) t = (false, None)).
Proof.
  apply (X12_connect_result_shape examplePubsub exampleFlags
           "projects/acme/topics/missing").
  vm_compute. reflexivity.
Defined.

(** No leading projects; too short; no topics in third place; nothing
    after topics. *)
Lemma X13_connect_malformed_path_witness :
  connectToPubsubTopic examplePubsub exampleFlags "topics/events"
  = ([], Returns (None, Some ("could not parse pubsub path " +:+ "topics/events")))
  /\
  connectToPubsubTopic examplePubsub exampleFlags "projects/acme"
  = ([], Panics) /\
  connectToPubsubTopic examplePubsub exampleFlags "projects/acme/subscriptions/s"
  = ([], Returns (None, Some ("could not parse pubsub path "
                               +:+ "projects/acme/subscriptions/s")))
  /\
  connectToPubsubTopic examplePubsub exampleFlags "projects/acme/topics"
  = ([], Panics).
Proof.
  split; [|split; [|split]].
  - apply (proj1 (X13_connect_malformed_path examplePubsub exampleFlags
                    "topics/events" (Split slash "topics/events") eq_refl)).
    vm_compute. discriminate.
  - apply (proj1 (proj2 (X13_connect_malformed_path examplePubsub exampleFlags
                           "projects/acme" (Split slash "projects/acme")
                           eq_refl))).
    + reflexivity.
    + vm_compute. lia.
  - apply (proj1 (proj2 (proj2 (X13_connect_malformed_path examplePubsub
                                  exampleFlags "projects/acme/subscriptions/s"
                                  (Split slash "projects/acme/subscriptions/s")
                                  eq_refl)))).
    + reflexivity.
    + vm_compute. lia.
    + vm_compute. discriminate.
  - apply (proj2 (proj2 (proj2 (X13_connect_malformed_path examplePubsub
                                  exampleFlags "projects/acme/topics"
                                  (Split slash "projects/acme/topics")
                                  eq_refl)))); reflexivity.
Defined.
